(** * RUBRIX: the evaluation contract and the report renderer of [app.py]

    A shallow embedding of the functions of [app.py] that build the prompt,
    call the model provider, clean and parse its verdict, and lay out the
    PDF report, followed by the properties the specification states about
    them.

    Conventions of the embedding.
    - A Python [str] is a Rocq [string]; one [ascii] stands for one
      character (a code point below 256).
    - A Python object that comes out of [json.loads] is a [json] value.
      Numbers are Python [int]s: floating point verdict values are outside
      the model.
    - Python exceptions are the [Raise] of the [result] type.  Every
      exception the modelled code can raise is caught by an
      [except Exception] clause, so the exception class is not recorded;
      the one class the code tells apart, [json.JSONDecodeError], is the
      [None] of the parser.
    - The collaborators of the program that live outside it (the HTTP
      provider, the JSON parser used on replies, the clock, the API key)
      are Section variables.
    - [generate_pdf_report] is modelled up to the list of flowables (the
      [story]) it hands to [doc.build]; reportlab's parsing of paragraph
      markup and its typesetting are outside the model. *)

From Stdlib Require Import List String Ascii ZArith Bool Lia.
From Stdlib Require Import Decimal DecimalString.
Import ListNotations.
Open Scope string_scope.
Open Scope Z_scope.
Set Warnings "-abstract-large-number".

(** ** Python strings *)

(** The newline and the double quote, which the literals below splice in. *)
Definition nl : string := String "010"%char EmptyString.
Definition dq : string := String "034"%char EmptyString.

(** [s[:n]] *)
Fixpoint take (n : nat) (s : string) : string :=
  match n, s with
  | S n', String c s' => String c (take n' s')
  | _, _ => EmptyString
  end.

(** [s[n:]] *)
Fixpoint drop (n : nat) (s : string) : string :=
  match n, s with
  | S n', String _ s' => drop n' s'
  | _, _ => s
  end.

(** [s[a:-b]] for literal [a >= 0] and [b > 0]: the characters from index
    [min a (len s)] up to index [max (len s - b) 0], none when the bounds
    cross.  The subtraction on [nat] is truncated, as the slice is. *)
Definition slice (a b : nat) (s : string) : string :=
  take (String.length s - b - a) (drop a s).

(** [str.isspace] on one character: the whitespace code points below 256. *)
Definition is_space (c : ascii) : bool :=
  let n := nat_of_ascii c in
  ((9 <=? n) && (n <=? 13) || (28 <=? n) && (n <=? 32)
   || (n =? 133) || (n =? 160))%nat.

(** [s.lstrip()] *)
Fixpoint lstrip (s : string) : string :=
  match s with
  | String c s' => if is_space c then lstrip s' else s
  | EmptyString => EmptyString
  end.

(** [s.rstrip()] *)
Fixpoint rstrip (s : string) : string :=
  match s with
  | String c s' =>
      match rstrip s' with
      | EmptyString => if is_space c then EmptyString else String c EmptyString
      | r => String c r
      end
  | EmptyString => EmptyString
  end.

(** [s.strip()] *)
Definition strip (s : string) : string := lstrip (rstrip s).

(** [s.startswith(p)] *)
Fixpoint startswith (s p : string) {struct p} : bool :=
  match p, s with
  | EmptyString, _ => true
  | String a p', String c s' => Ascii.eqb a c && startswith s' p'
  | String _ _, EmptyString => false
  end.

(** [p in s] for two strings *)
Fixpoint contains (p s : string) : bool :=
  startswith s p ||
  match s with
  | String _ s' => contains p s'
  | EmptyString => false
  end.

(** [s.upper()]: the letters a-z, and the Latin-1 letters whose capital is a
    code point below 256 (all of 224-254 but the division sign).  The three
    characters whose capital lies outside the range (181, 223 and 255) are
    left as they are. *)
Definition upper_char (c : ascii) : ascii :=
  let n := nat_of_ascii c in
  if ((97 <=? n) && (n <=? 122)
      || (224 <=? n) && (n <=? 254) && negb (n =? 247))%nat
  then ascii_of_nat (n - 32) else c.

Fixpoint upper (s : string) : string :=
  match s with
  | String c s' => String (upper_char c) (upper s')
  | EmptyString => EmptyString
  end.

(** [str(n)] for an [int] *)
Definition str_of_int (n : Z) : string := NilZero.string_of_int (Z.to_int n).

(** [sep.join(l)] *)
Definition join (sep : string) (l : list string) : string := String.concat sep l.

(** ** Python objects *)

(** What [json.loads] and [request.get_json] produce.  A [dict] keeps its
    insertion order, which [json.dumps] shows, so it is an association list;
    its keys are distinct. *)
#[warnings="-register-all"]
Inductive json : Type :=
| JNull
| JBool (b : bool)
| JInt (n : Z)
| JStr (s : string)
| JArr (items : list json)
| JObj (fields : list (string * json)).

Definition dict : Type := list (string * json).

(** Outcome of a Python expression: a value, or an exception. *)
Inductive result (A : Type) : Type :=
| Ok (a : A)
| Raise.
Arguments Ok {A} a.
Arguments Raise {A}.

Definition bind {A B : Type} (m : result A) (k : A -> result B) : result B :=
  match m with
  | Ok a => k a
  | Raise => Raise
  end.

Declare Scope result_scope.
Delimit Scope result_scope with result.
Notation "x <- m ;; k" := (bind m (fun x => k))
  (at level 61, m at next level, right associativity) : result_scope.

Fixpoint lookup (k : string) (d : dict) : option json :=
  match d with
  | [] => None
  | (k', v) :: d' => if String.eqb k k' then Some v else lookup k d'
  end.

(** [d[k] = v] on a dict: the value is replaced in place, a new key goes
    last. *)
Fixpoint dict_set (k : string) (v : json) (d : dict) : dict :=
  match d with
  | [] => [(k, v)]
  | (k', v') :: d' =>
      if String.eqb k k' then (k', v) :: d' else (k', v') :: dict_set k v d'
  end.

(** [d.get(k, default)]; only a dict has the method. *)
Definition dict_get (d : json) (k : string) (default : json) : result json :=
  match d with
  | JObj f => Ok (match lookup k f with Some v => v | None => default end)
  | _ => Raise
  end.

(** [d[k]] for a string key [k]: a dict that has the key. *)
Definition subscript (d : json) (k : string) : result json :=
  match d with
  | JObj f => match lookup k f with Some v => Ok v | None => Raise end
  | _ => Raise
  end.

(** [k in d] for a string [k]: the substring, the element or the key. *)
Definition py_in (k : string) (d : json) : result bool :=
  match d with
  | JStr s => Ok (contains k s)
  | JArr l =>
      Ok (existsb (fun x => match x with JStr s => String.eqb k s | _ => false end) l)
  | JObj f => Ok (match lookup k f with Some _ => true | None => false end)
  | _ => Raise
  end.

(** Truth value of an object, as [if v:] takes it. *)
Definition truthy (v : json) : bool :=
  match v with
  | JNull => false
  | JBool b => b
  | JInt n => negb (n =? 0)
  | JStr s => negb (String.eqb s EmptyString)
  | JArr l => match l with [] => false | _ => true end
  | JObj f => match f with [] => false | _ => true end
  end.

(** [len(v)] *)
Definition py_len (v : json) : result Z :=
  match v with
  | JStr s => Ok (Z.of_nat (String.length s))
  | JArr l => Ok (Z.of_nat (List.length l))
  | JObj f => Ok (Z.of_nat (List.length f))
  | _ => Raise
  end.

(** What [for x in v] runs through: the items of a list, the characters of a
    string, the keys of a dict. *)
Definition py_iter (v : json) : result (list json) :=
  match v with
  | JArr l => Ok l
  | JStr s => Ok (map (fun c => JStr (String c EmptyString)) (list_ascii_of_string s))
  | JObj f => Ok (map (fun kv => JStr (fst kv)) f)
  | _ => Raise
  end.

(** [v >= k] for an [int] literal [k]; [bool] is a subclass of [int]. *)
Definition py_ge (v : json) (k : Z) : result bool :=
  match v with
  | JInt n => Ok (k <=? n)
  | JBool b => Ok (k <=? (if b then 1 else 0))
  | _ => Raise
  end.

(** [v.upper()] *)
Definition py_upper (v : json) : result string :=
  match v with
  | JStr s => Ok (upper s)
  | _ => Raise
  end.

(** [v[:n]]: strings and lists can be sliced. *)
Definition py_slice_to (n : nat) (v : json) : result json :=
  match v with
  | JStr s => Ok (JStr (take n s))
  | JArr l => Ok (JArr (firstn n l))
  | _ => Raise
  end.

(** [repr(s)] for a string. *)
Definition hex_digit (n : nat) : ascii :=
  ascii_of_nat (if (n <? 10)%nat then 48 + n else 87 + n).

Definition hex2 (n : nat) : string :=
  String (hex_digit (n / 16)) (String (hex_digit (n mod 16)) EmptyString).

Definition is_printable (n : nat) : bool :=
  ((32 <=? n) && (n <=? 126) || (161 <=? n) && negb (n =? 173))%nat.

Fixpoint has_char (c : ascii) (s : string) : bool :=
  match s with
  | String c' s' => Ascii.eqb c c' || has_char c s'
  | EmptyString => false
  end.

Fixpoint repr_chars (quote : ascii) (s : string) : string :=
  match s with
  | EmptyString => EmptyString
  | String c s' =>
      let n := nat_of_ascii c in
      (if Ascii.eqb c quote || Ascii.eqb c "\"%char
       then String "\"%char (String c EmptyString)
       else if (n =? 9)%nat then "\t"
       else if (n =? 10)%nat then "\n"
       else if (n =? 13)%nat then "\r"
       else if is_printable n then String c EmptyString
       else "\x" ++ hex2 n)
      ++ repr_chars quote s'
  end.

Definition repr_str (s : string) : string :=
  let quote :=
    if has_char "'"%char s && negb (has_char "034"%char s)
    then "034"%char else "'"%char in
  String quote (repr_chars quote s ++ String quote EmptyString).

(** [repr(v)] *)
Fixpoint py_repr (v : json) : string :=
  match v with
  | JNull => "None"
  | JBool b => if b then "True" else "False"
  | JInt n => str_of_int n
  | JStr s => repr_str s
  | JArr l => "[" ++ join ", " (map py_repr l) ++ "]"
  | JObj f =>
      "{" ++ join ", " (map (fun '(k, x) => repr_str k ++ ": " ++ py_repr x) f) ++ "}"
  end.

(** [str(v)], which is what an f-string field [{v}] shows. *)
Definition py_str (v : json) : string :=
  match v with
  | JStr s => s
  | _ => py_repr v
  end.

(** ** The story of a report: [generate_pdf_report] *)

Inductive style : Type :=
| title_style
| subtitle_style
| heading_style
| subheading_style
| normal_style.

(** What [story.append] receives.  A table row is a label and a cell. *)
Inductive flowable : Type :=
| Paragraph (text : string) (st : style)
| Spacer (width height : Z)
| PageBreak
| Table (rows : list (string * json)).

Definition story : Type := list flowable.

(** The three colours of the status line, and reportlab's [hexval] of each
    ([colors.green] is [HexColor(0x008000)], [colors.orange] is
    [HexColor(0xFFA500)], [colors.red] is [HexColor(0xFF0000)]). *)
Inductive color : Type :=
| green
| orange
| red.

Definition hexval (c : color) : string :=
  match c with
  | green => "0x008000"
  | orange => "0xffa500"
  | red => "0xff0000"
  end.

(** What the renderer reads from its environment. *)
Record clock : Type := {
  now_stamp : string;   (* datetime.now().strftime('%Y-%m-%d %H:%M:%S') *)
  fresh_id : string;    (* str(uuid.uuid4())[:8] *)
  now_footer : string   (* datetime.now().strftime('%Y-%m-%d at %H:%M:%S') *)
}.

(** A computation that appends to the story and may raise. *)
Definition render (A : Type) : Type := result (A * story).

Definition pure {A : Type} (a : A) : render A := Ok (a, []).

Definition lift {A : Type} (m : result A) : render A :=
  match m with
  | Ok a => Ok (a, [])
  | Raise => Raise
  end.

Definition seq {A B : Type} (m : render A) (k : A -> render B) : render B :=
  match m with
  | Ok (a, out) =>
      match k a with
      | Ok (b, out') => Ok (b, (out ++ out')%list)
      | Raise => Raise
      end
  | Raise => Raise
  end.

Declare Scope render_scope.
Delimit Scope render_scope with render.
Bind Scope render_scope with render.
Notation "x <- m ;; k" := (seq m (fun x => k))
  (at level 61, m at next level, right associativity) : render_scope.
Notation "m ;; k" := (seq m (fun _ => k))
  (at level 61, right associativity) : render_scope.

(** [story.append(f)] *)
Definition emit (f : flowable) : render unit := Ok (tt, [f]).

(** [story.append(Paragraph(v, st))] for an object [v] that is not the
    result of an f-string: [Paragraph] takes a [str]. *)
Definition paragraph (v : json) (st : style) : render unit :=
  match v with
  | JStr s => emit (Paragraph s st)
  | _ => Raise
  end.

(** [if b: m] *)
Definition when (b : bool) (m : render unit) : render unit :=
  if b then m else pure tt.

(** [for x in l: body(x)] *)
Fixpoint for_each {A : Type} (l : list A) (body : A -> render unit) : render unit :=
  match l with
  | [] => pure tt
  | x :: l' => (body x ;; for_each l' body)%render
  end.

(** [enumerate(l, i)] *)
Fixpoint enumerate (i : Z) (l : list json) : list (Z * json) :=
  match l with
  | [] => []
  | x :: l' => (i, x) :: enumerate (i + 1) l'
  end.

(** [d.get(k)] as a condition. *)
Definition present (d : json) (k : string) : result bool :=
  (v <- dict_get d k JNull ;; Ok (truthy v))%result.

(** [d.get(k) and len(d[k]) > 0] *)
Definition has_items (d : json) (k : string) : result bool :=
  (v <- dict_get d k JNull ;;
   if truthy v
   then (x <- subscript d k ;; n <- py_len x ;; Ok (0 <? n))
   else Ok false)%result.

(** What [for x in d[k]] runs through. *)
Definition items_of (d : json) (k : string) : result (list json) :=
  (x <- subscript d k ;; py_iter x)%result.

(** The bullet that starts an item line, as the bytes of the source
    literal. *)
Definition bullet : string :=
  String "226"%char (String "128"%char (String "154"%char (String "195"%char
  (String "132"%char (String "194"%char (String "162"%char EmptyString)))))).

(** [for x in d[k]: story.append(Paragraph(f"<bullet> {x}", normal_style))] *)
Definition bullets (d : json) (k : string) : render unit :=
  (l <- lift (items_of d k) ;;
   for_each l (fun x => emit (Paragraph (bullet ++ " " ++ py_str x) normal_style)))%render.

(** The qualitative band of a criterion, from its score. *)
Definition score_color (score_percentage : json) : result string :=
  (good <- py_ge score_percentage 70 ;;
   if good then Ok "Good"
   else (fair <- py_ge score_percentage 50 ;;
         if fair then Ok "Needs Work" else Ok "Poor"))%result.

(** The colour of the status line, from the status. *)
Definition status_color (status : json) : result color :=
  (ready <- py_in "Ready" status ;;
   if ready then Ok green
   else (minor <- py_in "Minor" status ;;
         if minor then Ok orange else Ok red))%result.

Section Renderer.

Variable clk : clock.

Local Open Scope render_scope.

(** Title page: the two title paragraphs and the table of identifiers. *)
Definition title_block (report_data : json) : render unit :=
  emit (Paragraph "RUBRIX Assignment Analysis Report" title_style) ;;
  emit (Spacer 1 40) ;;
  emit (Paragraph "AI-Powered Academic Evaluation" subtitle_style) ;;
  emit (Spacer 1 40) ;;
  assignment <- lift (dict_get report_data "assignment" (JStr "N/A")) ;;
  rubric <- lift (dict_get report_data "rubric" (JStr "N/A")) ;;
  overall_score <- lift (dict_get report_data "overall_score" (JStr "N/A")) ;;
  overall_grade <- lift (dict_get report_data "overall_grade" (JStr "N/A")) ;;
  timestamp <- lift (dict_get report_data "timestamp" (JStr (now_stamp clk))) ;;
  emit (Table [("Assignment:", assignment);
               ("Rubric:", rubric);
               ("Overall Score:", JStr (py_str overall_score ++ "/100"));
               ("Overall Grade:", overall_grade);
               ("Report Generated:", timestamp)]).

Definition executive_summary (report_data : json) : render unit :=
  emit (Spacer 1 30) ;;
  emit (Paragraph "Executive Summary" heading_style) ;;
  summary <- lift (dict_get report_data "summary" (JStr "No summary available.")) ;;
  paragraph summary normal_style.

Definition grade_justification (report_data : json) : render unit :=
  shown <- lift (present report_data "grade_justification") ;;
  when shown
    (emit (Spacer 1 20) ;;
     emit (Paragraph "Grade Justification" heading_style) ;;
     text <- lift (dict_get report_data "grade_justification" JNull) ;;
     paragraph text normal_style).

Definition deficiency_entry (entry : Z * json) : render unit :=
  let (i, deficiency) := entry in
  issue <- lift (dict_get deficiency "issue" (JStr "N/A")) ;;
  emit (Paragraph ("<b>" ++ str_of_int i ++ ". " ++ py_str issue ++ "</b>") subheading_style) ;;
  has_priority <- lift (present deficiency "priority") ;;
  when has_priority
    (priority <- lift (subscript deficiency "priority") ;;
     shout <- lift (py_upper priority) ;;
     emit (Paragraph ("Priority: " ++ shout) normal_style)) ;;
  has_evidence <- lift (present deficiency "evidence") ;;
  when has_evidence
    (evidence <- lift (subscript deficiency "evidence") ;;
     emit (Paragraph ("<i>Evidence:</i> " ++ dq ++ py_str evidence ++ dq) normal_style)) ;;
  has_remediation <- lift (present deficiency "remediation") ;;
  when has_remediation
    (remediation <- lift (subscript deficiency "remediation") ;;
     emit (Paragraph ("<i>How to Fix:</i> " ++ py_str remediation) normal_style)) ;;
  emit (Spacer 1 15).

Definition critical_deficiencies (report_data : json) : render unit :=
  shown <- lift (has_items report_data "critical_deficiencies") ;;
  when shown
    (emit (Paragraph "Critical Deficiencies" heading_style) ;;
     emit (Paragraph "These issues require immediate attention:" subheading_style) ;;
     emit (Spacer 1 10) ;;
     l <- lift (items_of report_data "critical_deficiencies") ;;
     for_each (enumerate 1 l) deficiency_entry).

Definition criterion_entry (criterion : json) : render unit :=
  score_percentage <- lift (dict_get criterion "score_percentage" (JInt 0)) ;;
  weight <- lift (dict_get criterion "weight" (JInt 0)) ;;
  let score_display := py_str score_percentage ++ "%" in
  name <- lift (dict_get criterion "criterion" (JStr "N/A")) ;;
  emit (Paragraph ("<b>" ++ py_str name ++ "</b> - Score: " ++ score_display
                   ++ " (Weight: " ++ py_str weight ++ "%)") subheading_style) ;;
  band <- lift (score_color score_percentage) ;;
  emit (Paragraph ("Performance Level: " ++ band) normal_style) ;;
  has_strengths <- lift (has_items criterion "strengths") ;;
  when has_strengths
    (emit (Paragraph "<b>Strengths:</b>" normal_style) ;;
     bullets criterion "strengths") ;;
  has_deficiencies <- lift (has_items criterion "deficiencies") ;;
  when has_deficiencies
    (emit (Paragraph "<b>Areas Needing Improvement:</b>" normal_style) ;;
     bullets criterion "deficiencies") ;;
  has_recommendations <- lift (has_items criterion "recommendations") ;;
  when has_recommendations
    (emit (Paragraph "<b>Specific Recommendations:</b>" normal_style) ;;
     bullets criterion "recommendations") ;;
  emit (Spacer 1 20).

Definition criteria_breakdown (report_data : json) : render unit :=
  shown <- lift (has_items report_data "criteria") ;;
  when shown
    (emit PageBreak ;;
     emit (Paragraph "Detailed Criteria Analysis" heading_style) ;;
     l <- lift (items_of report_data "criteria") ;;
     for_each l criterion_entry).

Definition strength_entry (entry : Z * json) : render unit :=
  let (i, strength) := entry in
  name <- lift (dict_get strength "strength" (JStr "N/A")) ;;
  emit (Paragraph ("<b>" ++ str_of_int i ++ ". " ++ py_str name ++ "</b>") subheading_style) ;;
  has_evidence <- lift (present strength "evidence") ;;
  when has_evidence
    (evidence <- lift (subscript strength "evidence") ;;
     emit (Paragraph ("Evidence: " ++ dq ++ py_str evidence ++ dq) normal_style)) ;;
  has_reinforcement <- lift (present strength "reinforcement") ;;
  when has_reinforcement
    (reinforcement <- lift (subscript strength "reinforcement") ;;
     emit (Paragraph ("How to build on this: " ++ py_str reinforcement) normal_style)) ;;
  emit (Spacer 1 10).

Definition strengths_to_build (report_data : json) : render unit :=
  shown <- lift (has_items report_data "strengths_to_build") ;;
  when shown
    (emit PageBreak ;;
     emit (Paragraph "Key Strengths to Build Upon" heading_style) ;;
     l <- lift (items_of report_data "strengths_to_build") ;;
     for_each (enumerate 1 l) strength_entry).

(** One field of the structural analysis: a title and the text. *)
Definition structural_field (struct : json) (k title : string) : render unit :=
  emit (Paragraph title subheading_style) ;;
  text <- lift (dict_get struct k (JStr "N/A")) ;;
  paragraph text normal_style.

Definition structural_analysis (report_data : json) : render unit :=
  shown <- lift (present report_data "structural_analysis") ;;
  when shown
    (emit PageBreak ;;
     emit (Paragraph "Structural Analysis" heading_style) ;;
     struct <- lift (subscript report_data "structural_analysis") ;;
     has_organization <- lift (present struct "organization") ;;
     when has_organization
       (structural_field struct "organization" "<b>Organization:</b>" ;;
        emit (Spacer 1 10)) ;;
     has_argument <- lift (present struct "argument_development") ;;
     when has_argument
       (structural_field struct "argument_development" "<b>Argument Development:</b>" ;;
        emit (Spacer 1 10)) ;;
     has_technical <- lift (present struct "technical_compliance") ;;
     when has_technical
       (structural_field struct "technical_compliance" "<b>Technical Compliance:</b>")).

(** One bucket of the revision plan: a title and the bulleted items. *)
Definition revision_bucket (recs : json) (k title : string) : render unit :=
  emit (Paragraph title subheading_style) ;;
  bullets recs k.

Definition revision_recommendations (report_data : json) : render unit :=
  shown <- lift (present report_data "revision_recommendations") ;;
  when shown
    (emit PageBreak ;;
     emit (Paragraph "Revision Action Plan" heading_style) ;;
     recs <- lift (subscript report_data "revision_recommendations") ;;
     has_high <- lift (has_items recs "high_priority") ;;
     when has_high
       (revision_bucket recs "high_priority" "<b>High Priority (Do First):</b>" ;;
        emit (Spacer 1 10)) ;;
     has_content <- lift (has_items recs "content_improvements") ;;
     when has_content
       (revision_bucket recs "content_improvements" "<b>Content Improvements:</b>" ;;
        emit (Spacer 1 10)) ;;
     has_structural <- lift (has_items recs "structural_changes") ;;
     when has_structural
       (revision_bucket recs "structural_changes" "<b>Structural Changes:</b>" ;;
        emit (Spacer 1 10)) ;;
     has_technical <- lift (has_items recs "technical_fixes") ;;
     when has_technical
       (revision_bucket recs "technical_fixes" "<b>Technical Fixes:</b>")).

Definition readiness_assessment (report_data : json) : render unit :=
  shown <- lift (present report_data "readiness_assessment") ;;
  when shown
    (emit (Spacer 1 20) ;;
     emit (Paragraph "Readiness Assessment" heading_style) ;;
     readiness <- lift (subscript report_data "readiness_assessment") ;;
     status <- lift (dict_get readiness "status" (JStr "Not Assessed")) ;;
     colour <- lift (status_color status) ;;
     emit (Paragraph ("<b>Status:</b> <font color='" ++ hexval colour ++ "'>"
                      ++ py_str status ++ "</font>") normal_style) ;;
     has_hours <- lift (present readiness "estimated_revision_hours") ;;
     when has_hours
       (hours <- lift (subscript readiness "estimated_revision_hours") ;;
        emit (Paragraph ("<b>Estimated Revision Time:</b> " ++ py_str hours ++ " hours")
                normal_style)) ;;
     has_barriers <- lift (has_items readiness "key_barriers") ;;
     when has_barriers
       (emit (Spacer 1 10) ;;
        emit (Paragraph "<b>Key Barriers to Higher Score:</b>" subheading_style) ;;
        bullets readiness "key_barriers")).

Definition report_notes (report_data : json) : render unit :=
  emit PageBreak ;;
  emit (Paragraph "Report Notes" heading_style) ;;
  emit (Paragraph "This report was generated by RUBRIX AI-Powered Assignment Analysis System."
          normal_style) ;;
  emit (Spacer 1 10) ;;
  emit (Paragraph "For questions or additional support, please contact your instructor or academic advisor."
          normal_style) ;;
  emit (Spacer 1 10) ;;
  analysis_id <- lift (dict_get report_data "analysis_id" (JStr (fresh_id clk))) ;;
  emit (Paragraph ("Report ID: " ++ py_str analysis_id) normal_style) ;;
  emit (Paragraph ("Generated on: " ++ now_footer clk) normal_style).

(** The body of [generate_pdf_report], block after block in the order of the
    source. *)
Definition build_story (report_data : json) : render unit :=
  title_block report_data ;;
  executive_summary report_data ;;
  grade_justification report_data ;;
  emit PageBreak ;;
  critical_deficiencies report_data ;;
  criteria_breakdown report_data ;;
  strengths_to_build report_data ;;
  structural_analysis report_data ;;
  revision_recommendations report_data ;;
  readiness_assessment report_data ;;
  report_notes report_data.

(** [generate_pdf_report(report_data)], up to the story that [doc.build]
    typesets. *)
Definition generate_pdf_report (report_data : json) : result story :=
  match build_story report_data with
  | Ok (_, out) => Ok out
  | Raise => Raise
  end.

End Renderer.

(** ** [json.dumps] and [json.loads] *)

(** A string as [json.dumps] writes it with its default [ensure_ascii]:
    the quote and the backslash escaped, the short escapes, every other
    character outside the printable ASCII range as a four-digit [\u]. *)
Fixpoint escape_chars (s : string) : string :=
  match s with
  | EmptyString => EmptyString
  | String c s' =>
      let n := nat_of_ascii c in
      (if (n =? 34)%nat then "\" ++ dq
       else if (n =? 92)%nat then "\\"
       else if (n =? 10)%nat then "\n"
       else if (n =? 13)%nat then "\r"
       else if (n =? 9)%nat then "\t"
       else if (n =? 12)%nat then "\f"
       else if (n =? 8)%nat then "\b"
       else if ((32 <=? n) && (n <=? 126))%nat then String c EmptyString
       else "\u00" ++ hex2 n)
      ++ escape_chars s'
  end.

Definition dumps_str (s : string) : string := dq ++ escape_chars s ++ dq.

(** [json.dumps(v)] with the default separators. *)
Fixpoint json_dumps (v : json) : string :=
  match v with
  | JNull => "null"
  | JBool b => if b then "true" else "false"
  | JInt n => str_of_int n
  | JStr s => dumps_str s
  | JArr l => "[" ++ join ", " (map json_dumps l) ++ "]"
  | JObj f =>
      "{" ++ join ", " (map (fun '(k, x) => dumps_str k ++ ": " ++ json_dumps x) f) ++ "}"
  end.

(** The decoder, on the documents of the model: [None] is Python's
    [JSONDecodeError], and also the answer on a document that is valid JSON
    but has no [json] value here (a number with a fraction or an exponent,
    [NaN], [Infinity], a [\u] escape of a code point above 255). *)
Definition is_json_ws (c : ascii) : bool :=
  let n := nat_of_ascii c in
  ((n =? 32) || (n =? 9) || (n =? 10) || (n =? 13))%nat.

Fixpoint skip_ws (s : string) : string :=
  match s with
  | String c s' => if is_json_ws c then skip_ws s' else s
  | EmptyString => EmptyString
  end.

Definition digit_of (c : ascii) : option Z :=
  let n := nat_of_ascii c in
  if ((48 <=? n) && (n <=? 57))%nat then Some (Z.of_nat (n - 48)) else None.

Definition hex_of (c : ascii) : option nat :=
  let n := nat_of_ascii c in
  if ((48 <=? n) && (n <=? 57))%nat then Some (n - 48)%nat
  else if ((97 <=? n) && (n <=? 102))%nat then Some (n - 87)%nat
  else if ((65 <=? n) && (n <=? 70))%nat then Some (n - 55)%nat
  else None.

(** The digits that continue a number. *)
Fixpoint scan_digits (acc : Z) (s : string) : Z * string :=
  match s with
  | String c s' =>
      match digit_of c with
      | Some d => scan_digits (10 * acc + d) s'
      | None => (acc, s)
      end
  | EmptyString => (acc, s)
  end.

(** Whether a fraction or an exponent follows, which makes a float. *)
Definition float_follows (s : string) : bool :=
  match s with
  | String c _ =>
      let n := nat_of_ascii c in ((n =? 46) || (n =? 101) || (n =? 69))%nat
  | EmptyString => false
  end.

(** An unsigned integer: a lone [0], or digits that start with 1-9. *)
Definition scan_nat (s : string) : option (Z * string) :=
  match s with
  | String c s' =>
      match digit_of c with
      | Some 0 => if float_follows s' then None else Some (0, s')
      | Some d =>
          let (n, rest) := scan_digits d s' in
          if float_follows rest then None else Some (n, rest)
      | None => None
      end
  | EmptyString => None
  end.

(** The characters of a string up to its closing quote, after the opening
    quote was read. *)
Fixpoint scan_string (s : string) : option (string * string) :=
  let cons c r :=
    match r with
    | Some (t, rest) => Some (String c t, rest)
    | None => None
    end in
  match s with
  | EmptyString => None
  | String c s' =>
      let n := nat_of_ascii c in
      if (n =? 34)%nat then Some (EmptyString, s')
      else if (n <? 32)%nat then None
      else if (n =? 92)%nat then
        match s' with
        | String e s'' =>
            let m := nat_of_ascii e in
            if (m =? 34)%nat then cons e (scan_string s'')
            else if (m =? 92)%nat then cons e (scan_string s'')
            else if (m =? 47)%nat then cons e (scan_string s'')
            else if (m =? 98)%nat then cons "008"%char (scan_string s'')
            else if (m =? 102)%nat then cons "012"%char (scan_string s'')
            else if (m =? 110)%nat then cons "010"%char (scan_string s'')
            else if (m =? 114)%nat then cons "013"%char (scan_string s'')
            else if (m =? 116)%nat then cons "009"%char (scan_string s'')
            else if (m =? 117)%nat then
              match s'' with
              | String h1 (String h2 (String h3 (String h4 rest))) =>
                  match hex_of h1, hex_of h2, hex_of h3, hex_of h4 with
                  | Some 0%nat, Some 0%nat, Some a, Some b =>
                      cons (ascii_of_nat (16 * a + b)) (scan_string rest)
                  | _, _, _, _ => None
                  end
              | _ => None
              end
            else None
        | EmptyString => None
        end
      else cons c (scan_string s')
  end.

(** [dict(pairs)]: a key that comes again keeps its place and takes the
    later value. *)
Definition dict_of_pairs (pairs : list (string * json)) : dict :=
  fold_left (fun d kv => dict_set (fst kv) (snd kv) d) pairs [].

Fixpoint parse_value (fuel : nat) (s : string) : option (json * string) :=
  match fuel with
  | O => None
  | S fuel' =>
      match s with
      | EmptyString => None
      | String c s' =>
          let n := nat_of_ascii c in
          if (n =? 123)%nat then
            match skip_ws s' with
            | String "}" rest => Some (JObj [], rest)
            | _ => parse_members fuel' [] (skip_ws s')
            end
          else if (n =? 91)%nat then
            match skip_ws s' with
            | String "]" rest => Some (JArr [], rest)
            | _ => parse_elements fuel' [] (skip_ws s')
            end
          else if (n =? 34)%nat then
            match scan_string s' with
            | Some (t, rest) => Some (JStr t, rest)
            | None => None
            end
          else if (n =? 45)%nat then
            match scan_nat s' with
            | Some (k, rest) => Some (JInt (- k), rest)
            | None => None
            end
          else if startswith s "null" then Some (JNull, drop 4 s)
          else if startswith s "true" then Some (JBool true, drop 4 s)
          else if startswith s "false" then Some (JBool false, drop 5 s)
          else
            match scan_nat s with
            | Some (k, rest) => Some (JInt k, rest)
            | None => None
            end
      end
  end

(** The elements of an array, from the first character of an element. *)
with parse_elements (fuel : nat) (acc : list json) (s : string)
  : option (json * string) :=
  match fuel with
  | O => None
  | S fuel' =>
      match parse_value fuel' s with
      | Some (v, rest) =>
          match skip_ws rest with
          | String "," rest' => parse_elements fuel' (acc ++ [v])%list (skip_ws rest')
          | String "]" rest' => Some (JArr (acc ++ [v])%list, rest')
          | _ => None
          end
      | None => None
      end
  end

(** The members of an object, from the opening quote of a key. *)
with parse_members (fuel : nat) (acc : list (string * json)) (s : string)
  : option (json * string) :=
  match fuel with
  | O => None
  | S fuel' =>
      match s with
      | String "034" s' =>
          match scan_string s' with
          | Some (k, rest) =>
              match skip_ws rest with
              | String ":" rest' =>
                  match parse_value fuel' (skip_ws rest') with
                  | Some (v, rest'') =>
                      match skip_ws rest'' with
                      | String "," r => parse_members fuel' (acc ++ [(k, v)])%list (skip_ws r)
                      | String "}" r => Some (JObj (dict_of_pairs (acc ++ [(k, v)])%list), r)
                      | _ => None
                      end
                  | None => None
                  end
              | _ => None
              end
          | None => None
          end
      | _ => None
      end
  end.

(** [json.loads(s)]: one value between optional whitespace. *)
Definition json_loads (s : string) : option json :=
  match parse_value (2 * String.length s + 2) (skip_ws s) with
  | Some (v, rest) =>
      match skip_ws rest with
      | EmptyString => Some v
      | _ => None
      end
  | None => None
  end.

(** ** The evaluation client: [analyze_with_openrouter] *)

(** The prompt up to the rubric. *)
Definition prompt_head : string :=
  join nl [
    "You are an experienced educator and evaluation specialist tasked with rigorous assessment of academic work. Your analysis must be critical, comprehensive, and strictly adhere to the rubric criteria.";
    EmptyString;
    "**RUBRIC FOR EVALUATION:**";
    EmptyString
  ].

(** The prompt between the rubric and the assignment. *)
Definition prompt_middle : string :=
  join nl [
    EmptyString;
    EmptyString;
    "**ASSIGNMENT SUBMISSION TO EVALUATE:**";
    EmptyString
  ].

(** The prompt after the assignment: the instructions and the example of the
    reply. *)
Definition prompt_tail : string :=
  join nl [
    EmptyString;
    EmptyString;
    "---";
    EmptyString;
    "## **EVALUATION INSTRUCTIONS:**";
    EmptyString;
    "### **1. STRICT ADHERENCE TO RUBRIC:**";
    "- Evaluate EXCLUSIVELY based on the provided rubric criteria";
    "- Do NOT introduce external standards or personal preferences";
    "- Map EVERY piece of feedback directly to specific rubric criteria";
    EmptyString;
    "### **2. REQUIRED ANALYSIS COMPONENTS:**";
    EmptyString;
    "#### **A. QUANTITATIVE SCORING:**";
    "- Score each rubric criterion separately on a scale of 0-100%";
    "- Provide EXACT percentages, not ranges";
    "- Calculate weighted overall score if rubric includes weightings";
    "- Flag ANY criterion where score is below 70% as " ++ dq ++ "Needs Significant Improvement" ++ dq;
    EmptyString;
    "#### **B. QUALITATIVE FEEDBACK (MUST INCLUDE):**";
    "- **Strengths Identified:** List 3-5 specific examples where criteria were met/exceeded";
    "- **Deficiencies Found:** List 5-8 specific, actionable deficiencies with exact evidence from submission";
    "- **Critical Analysis:** Explain WHY each deficiency constitutes a failure to meet rubric standards";
    "- **Evidence-Based Assessment:** Include exact quotes/line numbers to support every claim";
    EmptyString;
    "#### **C. STRUCTURAL ANALYSIS:**";
    "- **Organization Evaluation:** Assess logical flow, paragraph structure, transitions";
    "- **Argumentation Analysis:** Evaluate thesis clarity, evidence quality, logical consistency";
    "- **Technical Components:** Check formatting, citations, length compliance, technical accuracy";
    EmptyString;
    "#### **D. CRITICAL THINKING ASSESSMENT:**";
    "- **Depth of Analysis:** Evaluate sophistication of thought, not just surface-level coverage";
    "- **Originality Assessment:** Check for rote repetition vs. genuine insight";
    "- **Synthesis Evaluation:** Assess integration of concepts, critical connections made";
    EmptyString;
    "### **3. REQUIRED FORMAT FOR RESPONSE:**";
    EmptyString;
    "Provide your analysis as a JSON object with this EXACT structure:";
    "{";
    "    " ++ dq ++ "overall_score" ++ dq ++ ": 85,";
    "    " ++ dq ++ "overall_grade" ++ dq ++ ": " ++ dq ++ "B" ++ dq ++ ",";
    "    " ++ dq ++ "criteria_breakdown" ++ dq ++ ": [";
    "        {";
    "            " ++ dq ++ "criterion" ++ dq ++ ": " ++ dq ++ "Criterion Name" ++ dq ++ ", ";
    "            " ++ dq ++ "score_percentage" ++ dq ++ ": 80, ";
    "            " ++ dq ++ "weight" ++ dq ++ ": 25,";
    "            " ++ dq ++ "strengths" ++ dq ++ ": [" ++ dq ++ "Specific strength with evidence" ++ dq ++ "],";
    "            " ++ dq ++ "deficiencies" ++ dq ++ ": [" ++ dq ++ "Specific deficiency with exact quote" ++ dq ++ "],";
    "            " ++ dq ++ "recommendations" ++ dq ++ ": [" ++ dq ++ "Concrete action required" ++ dq ++ "],";
    "            " ++ dq ++ "needs_improvement" ++ dq ++ ": true/false";
    "        }";
    "    ],";
    "    " ++ dq ++ "critical_deficiencies" ++ dq ++ ": [";
    "        {";
    "            " ++ dq ++ "issue" ++ dq ++ ": " ++ dq ++ "Specific critical issue" ++ dq ++ ",";
    "            " ++ dq ++ "evidence" ++ dq ++ ": " ++ dq ++ "Exact quote/location" ++ dq ++ ",";
    "            " ++ dq ++ "priority" ++ dq ++ ": " ++ dq ++ "high/medium/low" ++ dq ++ ",";
    "            " ++ dq ++ "remediation" ++ dq ++ ": " ++ dq ++ "Step-by-step fix" ++ dq;
    "        }";
    "    ],";
    "    " ++ dq ++ "strengths_to_build" ++ dq ++ ": [";
    "        {";
    "            " ++ dq ++ "strength" ++ dq ++ ": " ++ dq ++ "Specific strength" ++ dq ++ ",";
    "            " ++ dq ++ "evidence" ++ dq ++ ": " ++ dq ++ "Exact quote/location" ++ dq ++ ",";
    "            " ++ dq ++ "reinforcement" ++ dq ++ ": " ++ dq ++ "How to build on this" ++ dq;
    "        }";
    "    ],";
    "    " ++ dq ++ "structural_analysis" ++ dq ++ ": {";
    "        " ++ dq ++ "organization" ++ dq ++ ": " ++ dq ++ "Detailed assessment" ++ dq ++ ",";
    "        " ++ dq ++ "argument_development" ++ dq ++ ": " ++ dq ++ "Specific evaluation" ++ dq ++ ",";
    "        " ++ dq ++ "technical_compliance" ++ dq ++ ": " ++ dq ++ "Checklist results" ++ dq;
    "    },";
    "    " ++ dq ++ "revision_recommendations" ++ dq ++ ": {";
    "        " ++ dq ++ "high_priority" ++ dq ++ ": [" ++ dq ++ "Exactly what to fix first" ++ dq ++ "],";
    "        " ++ dq ++ "content_improvements" ++ dq ++ ": [" ++ dq ++ "Specific content changes" ++ dq ++ "],";
    "        " ++ dq ++ "structural_changes" ++ dq ++ ": [" ++ dq ++ "Required reorganization" ++ dq ++ "],";
    "        " ++ dq ++ "technical_fixes" ++ dq ++ ": [" ++ dq ++ "Exact formatting fixes" ++ dq ++ "]";
    "    },";
    "    " ++ dq ++ "grade_justification" ++ dq ++ ": " ++ dq ++ "Concise paragraph explaining score" ++ dq ++ ",";
    "    " ++ dq ++ "readiness_assessment" ++ dq ++ ": {";
    "        " ++ dq ++ "status" ++ dq ++ ": " ++ dq ++ "Needs Major Revision" ++ dq ++ ",";
    "        " ++ dq ++ "estimated_revision_hours" ++ dq ++ ": 5,";
    "        " ++ dq ++ "key_barriers" ++ dq ++ ": [" ++ dq ++ "Fundamental issue 1" ++ dq ++ ", " ++ dq ++ "Fundamental issue 2" ++ dq ++ "]";
    "    },";
    "    " ++ dq ++ "summary" ++ dq ++ ": " ++ dq ++ "Overall summary with actionable insights" ++ dq;
    "}";
    EmptyString;
    "### **4. EVALUATION PRINCIPLES TO ENFORCE:**";
    EmptyString;
    "- **Zero Tolerance for:** Plagiarism indicators, major factual errors, ignoring assignment requirements";
    "- **High Standards for:** Critical thinking, original analysis, proper academic conventions";
    "- **Evidence-Required:** Every criticism MUST reference specific submission content";
    "- **Action-Oriented:** All feedback must enable immediate, concrete improvements";
    EmptyString;
    "### **5. FINAL REQUIREMENTS:**";
    EmptyString;
    "- Do NOT give participation trophies or inflated scores";
    "- Do NOT hesitate to give low scores when warranted by rubric";
    "- Do NOT provide vague feedback - be brutally specific";
    "- DO highlight both excellence and failure with equal specificity";
    "- DO maintain professional, constructive but uncompromising tone";
    EmptyString;
    "**BEGIN EVALUATION NOW. Be meticulous, critical, and evidence-based in your assessment.**";
    EmptyString
  ].

(** The f-string of the prompt: the first 4000 characters of the rubric and
    the first 6000 of the assignment between the fixed parts. *)
Definition build_prompt (assignment_text rubric_text : json) : result string :=
  (rubric <- py_slice_to 4000 rubric_text ;;
   assignment <- py_slice_to 6000 assignment_text ;;
   Ok (prompt_head ++ py_str rubric ++ prompt_middle ++ py_str assignment
       ++ prompt_tail))%result.

(** The verdict that stands in for the provider's when the call fails. *)
Definition fallback_verdict : json :=
  JObj [
    ("overall_score", JInt 78);
    ("overall_grade", JStr "C+");
    ("criteria_breakdown", JArr [
      JObj [
        ("criterion", JStr "Content Quality");
        ("score_percentage", JInt 72);
        ("weight", JInt 35);
        ("strengths", JArr [JStr "Clear thesis statement in introduction";
              JStr "Relevant examples provided"]);
        ("deficiencies", JArr [JStr "Lacks depth in analysis - only surface level coverage";
              JStr "Missing citations for key claims"]);
        ("recommendations", JArr [JStr "Add at least 3 scholarly references";
              JStr "Deepen analysis with counterarguments"]);
        ("needs_improvement", JBool true)];
      JObj [
        ("criterion", JStr "Organization");
        ("score_percentage", JInt 85);
        ("weight", JInt 25);
        ("strengths", JArr [JStr "Logical paragraph structure";
              JStr "Clear transitions between sections"]);
        ("deficiencies", JArr [JStr "Conclusion is abrupt and doesn't synthesize main points";
              JStr "Introduction could better preview structure"]);
        ("recommendations", JArr [JStr "Expand conclusion to summarize key findings";
              JStr "Add roadmap sentence in introduction"]);
        ("needs_improvement", JBool false)];
      JObj [
        ("criterion", JStr "Critical Thinking");
        ("score_percentage", JInt 65);
        ("weight", JInt 40);
        ("strengths", JArr [JStr "Identifies main issues in the topic"]);
        ("deficiencies", JArr [JStr "Fails to analyze underlying assumptions";
              JStr "No synthesis of different perspectives";
              JStr "Superficial evaluation of evidence"]);
        ("recommendations", JArr [JStr "Question the assumptions behind each argument";
              JStr "Compare and contrast at least 3 different viewpoints";
              JStr "Evaluate the quality of evidence used"]);
        ("needs_improvement", JBool true)]]);
    ("critical_deficiencies", JArr [
      JObj [
        ("issue", JStr "Lack of critical analysis depth");
        ("evidence", JStr (dq ++ "The solution is effective because it helps people." ++ dq ++ " (Paragraph 3) - This is descriptive, not analytical"));
        ("priority", JStr "high");
        ("remediation", JStr "Replace descriptive statements with analytical questions: Why is it effective? For whom? Under what conditions? Compared to what alternatives?")];
      JObj [
        ("issue", JStr "Missing academic citations");
        ("evidence", JStr "No references provided for claims about statistics or established theories");
        ("priority", JStr "high");
        ("remediation", JStr "Add minimum 5 scholarly sources using proper APA/MLA format")]]);
    ("strengths_to_build", JArr [
      JObj [
        ("strength", JStr "Clear writing style");
        ("evidence", JStr "Sentence structure is varied and readable throughout (e.g., Paragraph 2 uses effective complex sentences)");
        ("reinforcement", JStr "Maintain this clarity while adding analytical depth")];
      JObj [
        ("strength", JStr "Logical organization");
        ("evidence", JStr "Each paragraph has clear topic sentences and flows naturally to the next");
        ("reinforcement", JStr "Apply same organizational rigor to argument development")]]);
    ("structural_analysis", JObj [
      ("organization", JStr "Good basic structure but lacks sophistication in argument development");
      ("argument_development", JStr "Linear presentation without enough critical engagement or synthesis");
      ("technical_compliance", JStr "Meets basic formatting but lacks citations and proper academic conventions")]);
    ("revision_recommendations", JObj [
      ("high_priority", JArr [JStr "Add scholarly citations";
            JStr "Deepen critical analysis"]);
      ("content_improvements", JArr [JStr "Include counterarguments";
            JStr "Add case studies/examples"]);
      ("structural_changes", JArr [JStr "Expand conclusion";
            JStr "Add literature review section"]);
      ("technical_fixes", JArr [JStr "Add reference list";
            JStr "Fix formatting inconsistencies"])]);
    ("grade_justification", JStr "Score of 78 reflects adequate content presentation but significant deficiencies in critical analysis and academic rigor. While well-organized, the submission lacks the analytical depth and scholarly engagement required for higher grades.");
    ("readiness_assessment", JObj [
      ("status", JStr "Needs Major Revision");
      ("estimated_revision_hours", JInt 6);
      ("key_barriers", JArr [JStr "Insufficient critical engagement";
            JStr "Lack of scholarly references";
            JStr "Superficial analysis"])]);
    ("summary", JStr "Adequately organized submission that meets basic requirements but requires substantial improvement in analytical depth, scholarly engagement, and critical thinking to achieve higher standards.");
    ("note", JStr "Using simulated analysis (OpenRouter unavailable)")].

(** The cleaning of a reply: the surrounding whitespace, then one code fence
    with or without the [json] tag. *)
Definition clean_response (ai_response : string) : string :=
  let ai_response := strip ai_response in
  if startswith ai_response "```json" then strip (slice 7 3 ai_response)
  else if startswith ai_response "```" then strip (slice 3 3 ai_response)
  else ai_response.

(** [v[0]]: the first item of a list, the first character of a string. *)
Definition first_item (v : json) : result json :=
  match v with
  | JArr (x :: _) => Ok x
  | JStr (String c _) => Ok (JStr (String c EmptyString))
  | _ => Raise
  end.

(** [s.strip()] on an object: only a string has the method. *)
Definition as_str (v : json) : result string :=
  match v with
  | JStr s => Ok s
  | _ => Raise
  end.

(** What [requests.post] is called with. *)
Record http_request : Type := {
  url : string;
  headers : list (string * string);
  model : string;
  system_content : string;
  user_content : string;
  temperature_percent : Z;
  max_tokens : Z;
  timeout : Z
}.

(** What [requests.post] does: it raises (no connection, timeout), or it
    returns a response with a status code and a body. *)
Inductive post_outcome : Type :=
| PostRaises
| PostReturns (status_code : Z) (text : string).

(** [response.raise_for_status()]: requests raises on the client and server
    error codes, 400 to 599. *)
Definition raise_for_status (status_code : Z) : result unit :=
  if (400 <=? status_code) && (status_code <? 600) then Raise else Ok tt.

Definition OPENROUTER_URL : string := "https://openrouter.ai/api/v1/chat/completions".

Definition FREE_MODELS : list string := [
  "meta-llama/llama-3.2-3b-instruct:free";
  "google/gemma-2-2b-it:free";
  "microsoft/phi-3-mini-4k-instruct:free";
  "qwen/qwen2.5-7b-instruct:free"
].

Section Client.

(** The key read from the environment, the provider, and the decoder of the
    [json] module. *)
Variable OPENROUTER_API_KEY : string.
Variable post : http_request -> post_outcome.
Variable loads : string -> option json.

Definition request_of (prompt : string) : http_request := {|
  url := OPENROUTER_URL;
  headers := [("Authorization", "Bearer " ++ OPENROUTER_API_KEY);
              ("HTTP-Referer", "http://localhost:5000");
              ("X-Title", "RUBRIX Assignment Evaluator");
              ("Content-Type", "application/json")];
  model := hd EmptyString FREE_MODELS;
  system_content := "You are an expert teacher and rigorous evaluator. Always respond with valid JSON only. Be critical, evidence-based, and uncompromising in your assessment.";
  user_content := prompt;
  temperature_percent := 20;   (* "temperature": 0.2 *)
  max_tokens := 2000;
  timeout := 45
|}.

(** The body of the [try]: the call, the status check, the decoding of the
    body, the path to the text of the reply, and its cleaning. *)
Definition attempt (request : http_request) : result string :=
  match post request with
  | PostRaises => Raise
  | PostReturns status_code text =>
      (_ <- raise_for_status status_code ;;
       result <- match loads text with Some v => Ok v | None => Raise end ;;
       choices <- subscript result "choices" ;;
       choice <- first_item choices ;;
       message <- subscript choice "message" ;;
       content <- subscript message "content" ;;
       ai_response <- as_str content ;;
       Ok (clean_response ai_response))%result
  end.

(** [analyze_with_openrouter]: the requests it sent, and what it returns.
    The prompt is built before the [try]; the three options are not read. *)
Definition analyze_with_openrouter
    (assignment_text rubric_text : json)
    (detailed_analysis rewrite_suggestions grade_prediction : json)
  : list http_request * result string :=
  match build_prompt assignment_text rubric_text with
  | Raise => ([], Raise)
  | Ok prompt =>
      let request := request_of prompt in
      ([request],
       Ok (match attempt request with
           | Ok ai_response => ai_response
           | Raise => json_dumps fallback_verdict
           end))
  end.

(** ** The route [/analyze]: [upload_files] *)

(** An uploaded file: its name, and what [read_file_content] gives for it
    once it is saved, or [Raise] when saving it raises. *)
Record upload : Type := {
  filename : string;
  saved_text : result string
}.

(** A request: a JSON body ([request.is_json]), or a form with its files
    and its fields. *)
Inductive request : Type :=
| JsonRequest (data : json)
| FormRequest (files : list (string * upload)) (form : list (string * string)).

(** A response: a JSON payload, a template with its context, or the answer
    of the outer handler, which shows the text of the exception. *)
Inductive response : Type :=
| Jsonify (payload : json)
| RenderTemplate (template : string) (context : list (string * json))
| JsonifyException
| RenderException.

Fixpoint file_named (k : string) (files : list (string * upload)) : option upload :=
  match files with
  | [] => None
  | (k', f) :: files' => if String.eqb k k' then Some f else file_named k files'
  end.

Fixpoint field_named (k : string) (form : list (string * string)) : option string :=
  match form with
  | [] => None
  | (k', v) :: form' => if String.eqb k k' then Some v else field_named k form'
  end.

(** [request.form.get(k) == 'on'] *)
Definition checked (k : string) (form : list (string * string)) : json :=
  JBool (match field_named k form with
         | Some v => String.eqb v "on"
         | None => false
         end).

(** The report that stands in for a verdict that did not parse. *)
Definition degraded_report (analysis_result : string) : json :=
  JObj [
    ("overall_score", JInt 75);
    ("overall_grade", JStr "C");
    ("criteria_breakdown", JArr [
      JObj [
        ("criterion", JStr "Content");
        ("score_percentage", JInt 70);
        ("weight", JInt 30);
        ("strengths", JArr [JStr "Basic content covered"]);
        ("deficiencies", JArr [JStr "Analysis needed"]);
        ("recommendations", JArr [JStr "Improve depth"]);
        ("needs_improvement", JBool true)]]);
    ("summary", JStr "Analysis completed but with parsing limitations.");
    ("raw_response", JStr (take 500 analysis_result))].

(** The branch of a JSON request (text input). *)
Definition analyze_json (data : json) : list http_request * response :=
  match dict_get data "assignment_text" (JStr EmptyString),
        dict_get data "rubric_text" (JStr EmptyString) with
  | Ok assignment_text, Ok rubric_text =>
      if negb (truthy assignment_text) || negb (truthy rubric_text)
      then ([], Jsonify (JObj [
                  ("success", JBool false);
                  ("error", JStr "Both assignment and rubric text are required")]))
      else
        match dict_get data "detailed_analysis" (JBool true),
              dict_get data "rewrite_suggestions" (JBool true),
              dict_get data "grade_prediction" (JBool true) with
        | Ok detailed_analysis, Ok rewrite_suggestions, Ok grade_prediction =>
            match analyze_with_openrouter assignment_text rubric_text
                    detailed_analysis rewrite_suggestions grade_prediction with
            | (sent, Ok analysis_result) =>
                (sent,
                 match loads analysis_result with
                 | Some analysis_data =>
                     Jsonify (JObj [("success", JBool true);
                                    ("analysis", analysis_data)])
                 | None =>
                     Jsonify (JObj [("success", JBool false);
                                    ("error", JStr "Failed to parse AI response");
                                    ("raw_response", JStr analysis_result)])
                 end)
            | (sent, Raise) => (sent, JsonifyException)
            end
        | _, _, _ => ([], JsonifyException)
        end
  | _, _ => ([], JsonifyException)
  end.

(** The branch of a form with the two files.  The temporary copies of the
    files and their removal are not modelled. *)
Definition analyze_files (assignment_file rubric_file : upload)
    (form : list (string * string)) : list http_request * response :=
  if String.eqb (filename assignment_file) EmptyString
     || String.eqb (filename rubric_file) EmptyString
  then ([], RenderTemplate "index.html" [("error", JStr "No files selected")])
  else
    let detailed_analysis := checked "detailed_analysis" form in
    let rewrite_suggestions := checked "rewrite_suggestions" form in
    let grade_prediction := checked "grade_prediction" form in
    match saved_text assignment_file, saved_text rubric_file with
    | Ok assignment_text, Ok rubric_text =>
        match analyze_with_openrouter (JStr assignment_text) (JStr rubric_text)
                detailed_analysis rewrite_suggestions grade_prediction with
        | (sent, Ok analysis_result) =>
            let analysis_data :=
              match loads analysis_result with
              | Some v => v
              | None => degraded_report analysis_result
              end in
            (sent,
             RenderTemplate "result.html" [
               ("analysis", analysis_data);
               ("assignment_name", JStr (filename assignment_file));
               ("rubric_name", JStr (filename rubric_file))])
        | (sent, Raise) => (sent, RenderException)
        end
    | _, _ => ([], RenderException)
    end.

(** [upload_files]: the requests sent to the provider, and the response. *)
Definition upload_files (req : request) : list http_request * response :=
  match req with
  | JsonRequest data => analyze_json data
  | FormRequest files form =>
      match file_named "assignment" files, file_named "rubric" files with
      | Some assignment_file, Some rubric_file =>
          analyze_files assignment_file rubric_file form
      | _, _ =>
          ([], RenderTemplate "index.html" [("error", JStr "Invalid request format")])
      end
  end.

End Client.

(** ** The Report shape of the data model *)

(** The shape follows the data model of the specification.  Every field is
    typed; a field that is absent counts as its empty value, so a shape
    constrains the fields that are there. *)
Definition is_str (v : json) : bool :=
  match v with JStr _ => true | _ => false end.

Definition is_int (v : json) : bool :=
  match v with JInt _ => true | _ => false end.

Definition is_bool (v : json) : bool :=
  match v with JBool _ => true | _ => false end.

Definition is_priority (v : json) : bool :=
  match v with
  | JStr s => String.eqb s "high" || String.eqb s "medium" || String.eqb s "low"
  | _ => false
  end.

Definition list_of (p : json -> bool) (v : json) : bool :=
  match v with JArr l => forallb p l | _ => false end.

Definition field_ok (f : dict) (k : string) (p : json -> bool) : bool :=
  match lookup k f with
  | Some v => p v
  | None => true
  end.

Definition record_of (fields : list (string * (json -> bool))) (v : json) : bool :=
  match v with
  | JObj f => forallb (fun '(k, p) => field_ok f k p) fields
  | _ => false
  end.

Definition criterion_shape : json -> bool :=
  record_of [("criterion", is_str);
             ("score_percentage", is_int);
             ("weight", is_int);
             ("strengths", list_of is_str);
             ("deficiencies", list_of is_str);
             ("recommendations", list_of is_str);
             ("needs_improvement", is_bool)].

Definition deficiency_shape : json -> bool :=
  record_of [("issue", is_str);
             ("evidence", is_str);
             ("priority", is_priority);
             ("remediation", is_str)].

Definition strength_shape : json -> bool :=
  record_of [("strength", is_str);
             ("evidence", is_str);
             ("reinforcement", is_str)].

Definition structural_shape : json -> bool :=
  record_of [("organization", is_str);
             ("argument_development", is_str);
             ("technical_compliance", is_str)].

Definition revision_shape : json -> bool :=
  record_of [("high_priority", list_of is_str);
             ("content_improvements", list_of is_str);
             ("structural_changes", list_of is_str);
             ("technical_fixes", list_of is_str)].

Definition readiness_shape : json -> bool :=
  record_of [("status", is_str);
             ("estimated_revision_hours", is_int);
             ("key_barriers", list_of is_str)].

Definition report_shape : json -> bool :=
  record_of [("overall_score", is_int);
             ("overall_grade", is_str);
             ("criteria", list_of criterion_shape);
             ("critical_deficiencies", list_of deficiency_shape);
             ("strengths_to_build", list_of strength_shape);
             ("structural_analysis", structural_shape);
             ("revision_recommendations", revision_shape);
             ("grade_justification", is_str);
             ("readiness_assessment", readiness_shape);
             ("summary", is_str);
             ("analysis_id", is_str);
             ("timestamp", is_str)].






(** A provider failure that the client absorbs: the call raised (no
    connection, timeout), or the status is a client or server error. *)
Definition provider_failed (o : post_outcome) : Prop :=
  match o with
  | PostRaises => True
  | PostReturns status_code _ => 400 <= status_code < 600
  end.

(** ** Inputs for the examples *)

Definition sample_clock : clock := {|
  now_stamp := "2026-01-15 10:30:00";
  fresh_id := "1a2b3c4d";
  now_footer := "2026-01-15 at 10:30:00"
|}.

(** A reply of the provider whose text is [content]. *)
Definition chat_completion (content : string) : string :=
  json_dumps (JObj [("choices", JArr [JObj [("message",
    JObj [("role", JStr "assistant"); ("content", JStr content)])]])]).

(** ** What it means for a block of the renderer to succeed *)






(** An upload with a name and a text. *)
Definition sample_upload (name text : string) : upload :=
  {| filename := name; saved_text := Ok text |}.

(** A form that uploads an empty assignment next to a rubric. *)
Definition empty_assignment_form : request :=
  FormRequest [("assignment", sample_upload "essay.txt" EmptyString);
               ("rubric", sample_upload "rubric.txt" "Grade the essay.")]
              [("detailed_analysis", "on")].

(** A provider that answers every request with [status_code] and a chat
    completion whose text is [content]. *)
Definition canned_provider (status_code : Z) (content : string)
  : http_request -> post_outcome :=
  fun _ => PostReturns status_code (chat_completion content).

(** The report stores criteria that the renderer does not show: its
    [criteria_breakdown] is a list that is not empty, it has no [criteria],
    the criteria block appends nothing, and the story is there without the
    heading of the criteria section. *)
Definition breakdown_dropped (clk : clock) (report : json) : Prop :=
  (exists l, subscript report "criteria_breakdown" = Ok (JArr l) /\ l <> [])
  /\ subscript report "criteria" = Raise
  /\ criteria_breakdown report = Ok (tt, [])
  /\ exists out,
       generate_pdf_report clk report = Ok out
       /\ ~ In (Paragraph "Detailed Criteria Analysis" heading_style) out.

(** ** The other functions and routes of [app.py] *)

(** [s.lower()]: the letters A-Z, and the Latin-1 capitals (192-222 but the
    multiplication sign). *)
Definition lower_char (c : ascii) : ascii :=
  let n := nat_of_ascii c in
  if ((65 <=? n) && (n <=? 90)
      || (192 <=? n) && (n <=? 222) && negb (n =? 215))%nat
  then ascii_of_nat (n + 32) else c.

Fixpoint lower (s : string) : string :=
  match s with
  | String c s' => String (lower_char c) (lower s')
  | EmptyString => EmptyString
  end.

(** [s.rsplit('.', 1)] when it has two items: what is before and what is
    after the last dot; [None] when [s] has no dot. *)
Fixpoint rsplit_dot (s : string) : option (string * string) :=
  match s with
  | EmptyString => None
  | String c s' =>
      match rsplit_dot s' with
      | Some (before, after) => Some (String c before, after)
      | None =>
          if Ascii.eqb c "."%char then Some (EmptyString, s') else None
      end
  end.

Definition ALLOWED_EXTENSIONS : list string :=
  ["txt"; "pdf"; "docx"; "md"; "py"; "java"; "cpp"; "html"; "css"; "js"; "json"].

(** [allowed_file(filename)]; the second item of the split is there
    whenever the first test passed. *)
Definition allowed_file (filename : string) : bool :=
  contains "." filename &&
  match rsplit_dot filename with
  | Some (_, extension) =>
      existsb (String.eqb (lower extension)) ALLOWED_EXTENSIONS
  | None => false
  end.

(** [s.replace(' ', '_')] *)
Fixpoint replace_spaces (s : string) : string :=
  match s with
  | String c s' =>
      String (if Ascii.eqb c " "%char then "_"%char else c) (replace_spaces s')
  | EmptyString => EmptyString
  end.

(** [v.replace(' ', '_')]: only a string has the method. *)
Definition py_replace_spaces (v : json) : result string :=
  match v with
  | JStr s => Ok (replace_spaces s)
  | _ => Raise
  end.

(** [d[k] = v]: item assignment with a string key needs a dict. *)
Definition set_item (d : json) (k : string) (v : json) : result json :=
  match d with
  | JObj f => Ok (JObj (dict_set k v f))
  | _ => Raise
  end.

(** [response.headers[name] = value]: werkzeug refuses a value that holds a
    carriage return or a line feed. *)
Definition header_value (value : string) : result string :=
  if has_char "010"%char value || has_char "013"%char value
  then Raise else Ok value.

(** What the other routes answer.  The text of a caught exception is not
    modelled: a failure keeps the fixed part of its message. *)
Inductive reply : Type :=
| PdfReply (pdf : story) (headers : list (string * string))
| JsonReply (status : Z) (payload : json)
| JsonFailure (status : Z) (fields : list (string * json)) (prefix : string).

Section Routes.

(** The clock of [generate_pdf_report], and the identifier and the time that
    [download_pdf] draws itself. *)
Variable clk : clock.
Variable new_id : string.
Variable new_stamp : string.

(** [if k not in report_data: report_data[k] = v] *)
Definition fill_in (report_data : json) (k : string) (v : json) : result json :=
  (there <- py_in k report_data ;;
   if there then Ok report_data else set_item report_data k v)%result.

(** The body of the [try] of [download_pdf]. *)
Definition pdf_response (report_data : json) : result reply :=
  (report_data <- fill_in report_data "analysis_id" (JStr new_id) ;;
   report_data <- fill_in report_data "timestamp" (JStr new_stamp) ;;
   pdf <- generate_pdf_report clk report_data ;;
   assignment <- dict_get report_data "assignment" (JStr "analysis") ;;
   assignment_name <- py_replace_spaces assignment ;;
   overall_score <- dict_get report_data "overall_score" (JStr "score") ;;
   let filename :=
     "RUBRIX_Report_" ++ assignment_name ++ "_" ++ py_str overall_score ++ ".pdf" in
   disposition <- header_value ("attachment; filename=" ++ filename) ;;
   Ok (PdfReply pdf [("Content-Type", "application/pdf");
                     ("Content-Disposition", disposition)]))%result.

(** [download_pdf], on the body that [request.get_json()] returned. *)
Definition download_pdf (report_data : json) : reply :=
  match pdf_response report_data with
  | Ok response => response
  | Raise => JsonFailure 500 [("success", JBool false)] "PDF generation failed: "
  end.

Variable OPENROUTER_API_KEY : string.
Variable post : http_request -> post_outcome.
Variable loads : string -> option json.

Definition test_assignment : string :=
  "Sample assignment: Write a critical analysis of renewable energy adoption in developing countries. Discuss economic, social, and environmental factors, and propose policy recommendations.".

Definition test_rubric : string :=
  "Rubric: Critical Analysis (40% weight): Depth of analysis, use of evidence, consideration of multiple perspectives. Policy Recommendations (30% weight): Feasibility, innovation, evidence-based. Structure and Clarity (20% weight): Organization, writing quality. Research and Citations (10% weight): Use of sources, proper citation.".

(** [test_ai]: the requests sent and the reply.  The options take their
    defaults; what the client returns is a string, so it is decoded. *)
Definition test_ai : list http_request * reply :=
  let failure :=
    JsonFailure 200 [("success", JBool false); ("strict_mode", JBool true);
                     ("fallback_working", JBool true)] EmptyString in
  match analyze_with_openrouter OPENROUTER_API_KEY post loads
          (JStr test_assignment) (JStr test_rubric)
          (JBool true) (JBool true) (JBool true) with
  | (sent, Ok test_result) =>
      (sent,
       match loads test_result with
       | Some parsed_result =>
           JsonReply 200 (JObj [("success", JBool true);
                                ("strict_mode", JBool true);
                                ("test_result", parsed_result)])
       | None => failure
       end)
  | (sent, Raise) => (sent, failure)
  end.

End Routes.



(** * Properties *)

(** ** Strings *)

Section StringFacts.

Local Open Scope nat_scope.

Lemma append_assoc (s t u : string) : (s ++ t) ++ u = s ++ t ++ u.
Proof. induction s as [|c s IH]; simpl; [reflexivity | now rewrite IH]. Qed.

Lemma length_append (s t : string) :
  String.length (s ++ t) = String.length s + String.length t.
Proof. induction s as [|c s IH]; simpl; [reflexivity | now rewrite IH]. Qed.

Lemma take_drop (n : nat) (s : string) : take n s ++ drop n s = s.
Proof.
  revert s; induction n as [|n IH]; intros [|c s]; simpl; try reflexivity.
  now rewrite IH.
Qed.

Lemma length_take (n : nat) (s : string) :
  String.length (take n s) = Nat.min n (String.length s).
Proof.
  revert s; induction n as [|n IH]; intros [|c s]; simpl; try reflexivity.
  now rewrite IH.
Qed.

Lemma take_length_append (s t : string) : take (String.length s) (s ++ t) = s.
Proof. induction s as [|c s IH]; simpl; [now destruct t | now rewrite IH]. Qed.

(** [startswith] and [contains] against their meaning. *)
Lemma startswith_append (p v : string) : startswith (p ++ v) p = true.
Proof.
  induction p as [|a p IH]; simpl; [reflexivity|].
  now rewrite Ascii.eqb_refl, IH.
Qed.

Lemma startswith_split (s p : string) :
  startswith s p = true -> exists v, s = p ++ v.
Proof.
  revert s; induction p as [|a p IH]; intros s H; simpl in *.
  - now exists s.
  - destruct s as [|c s]; [discriminate|].
    apply andb_true_iff in H as [Hc Hs].
    apply Ascii.eqb_eq in Hc; subst c.
    destruct (IH _ Hs) as [v ->]. now exists v.
Qed.

Lemma startswith_longer (s p q : string) :
  startswith s p = false -> startswith s (p ++ q) = false.
Proof.
  revert s; induction p as [|a p IH]; intros s H; simpl in *; [discriminate|].
  destruct s as [|c s]; [reflexivity|].
  destruct (Ascii.eqb a c); simpl in *; [now apply IH | reflexivity].
Qed.




(** [strip] and its two halves. *)
Lemma lstrip_idem (s : string) : lstrip (lstrip s) = lstrip s.
Proof.
  induction s as [|c s IH]; simpl; [reflexivity|].
  destruct (is_space c) eqn:E; [exact IH | simpl; now rewrite E].
Qed.

Lemma rstrip_idem (s : string) : rstrip (rstrip s) = rstrip s.
Proof.
  induction s as [|c s IH]; simpl; [reflexivity|].
  destruct (rstrip s) as [|a r] eqn:E.
  - destruct (is_space c) eqn:Ec; simpl; [reflexivity | now rewrite Ec].
  - change (rstrip (String c (String a r))) with
      (match rstrip (String a r) with
       | "" => if is_space c then "" else String c ""
       | r' => String c r'
       end).
    now rewrite IH.
Qed.

Lemma rstrip_fixed_tail (c : ascii) (s : string) :
  rstrip (String c s) = String c s -> s <> "" -> rstrip s = s.
Proof.
  simpl. intros H Hs. destruct (rstrip s) as [|a r].
  - destruct (is_space c); [discriminate | injection H as <-; now destruct Hs].
  - now injection H.
Qed.

Lemma rstrip_lstrip_fixed (s : string) :
  rstrip s = s -> rstrip (lstrip s) = lstrip s.
Proof.
  induction s as [|c s IH]; intros H; simpl; [reflexivity|].
  destruct (is_space c) eqn:Ec; [|exact H].
  destruct s as [|a s]; [reflexivity|].
  apply IH. now apply (rstrip_fixed_tail c).
Qed.

Lemma strip_idem (s : string) : strip (strip s) = strip s.
Proof.
  unfold strip.
  rewrite (rstrip_lstrip_fixed (rstrip s)) by apply rstrip_idem.
  apply lstrip_idem.
Qed.

Lemma rstrip_ends_plain (s : string) (c : ascii) :
  is_space c = false -> rstrip (s ++ String c "") = s ++ String c "".
Proof.
  intros Hc. induction s as [|a s IH]; simpl.
  - now rewrite Hc.
  - simpl in IH. rewrite IH. now destruct (s ++ String c "") eqn:E; [destruct s|].
Qed.

Lemma rstrip_ends_space (s : string) (c : ascii) :
  is_space c = true -> rstrip (s ++ String c "") = rstrip s.
Proof.
  intros Hc. induction s as [|a s IH]; simpl.
  - now rewrite Hc.
  - now rewrite IH.
Qed.

Lemma strip_starts_space (s : string) (c : ascii) :
  is_space c = true -> strip (String c s) = strip s.
Proof.
  intros Hc. unfold strip. simpl.
  destruct (rstrip s) as [|a r]; simpl; now rewrite Hc.
Qed.

(** A line of its own strips to what the text strips to. *)
Lemma strip_own_line (X : string) : strip (nl ++ X ++ nl) = strip X.
Proof.
  change (nl ++ X ++ nl) with (String "010"%char (X ++ nl)).
  rewrite strip_starts_space by reflexivity.
  unfold strip, nl. now rewrite rstrip_ends_space by reflexivity.
Qed.

(** A fenced text is already stripped. *)
Lemma strip_fenced (c : ascii) (s : string) :
  is_space c = false ->
  strip (String c (s ++ "```")) = String c (s ++ "```").
Proof.
  intros Hc. unfold strip.
  change (String c (s ++ "```")) with (String c s ++ "``" ++ "`").
  rewrite <- append_assoc.
  rewrite rstrip_ends_plain by reflexivity.
  rewrite append_assoc. simpl. now rewrite Hc.
Qed.

End StringFacts.

(** ** The prompt and the cleaning of a reply *)

Section ClientFacts.

Local Open Scope nat_scope.

Lemma drop_length_append (p s : string) : drop (String.length p) (p ++ s) = s.
Proof. induction p as [|c p IH]; simpl; [now destruct s | exact IH]. Qed.

(** The slice that removes a fence of [p] and the three closing backticks. *)
Lemma slice_fence (p s : string) :
  slice (String.length p) 3 (p ++ s ++ "```") = s.
Proof.
  unfold slice. rewrite drop_length_append, !length_append.
  replace (String.length p + (String.length s + String.length "```") - 3
           - String.length p) with (String.length s) by (simpl; lia).
  apply take_length_append.
Qed.

Lemma clean_response_stripped (s : string) :
  strip (clean_response s) = clean_response s.
Proof.
  unfold clean_response.
  destruct (startswith (strip s) "```json");
    [|destruct (startswith (strip s) "```")]; apply strip_idem.
Qed.

Lemma clean_response_plain (s : string) :
  startswith (strip s) "```" = false -> clean_response s = strip s.
Proof.
  intros H. unfold clean_response.
  change "```json" with ("```" ++ "json").
  now rewrite (startswith_longer _ "```" "json" H), H.
Qed.

Lemma clean_response_json_fence (X : string) :
  clean_response ("```json" ++ nl ++ X ++ nl ++ "```") = strip X.
Proof.
  assert (E : "```json" ++ nl ++ X ++ nl ++ "```"
              = String "`" (("``json" ++ nl ++ X ++ nl) ++ "```")).
  { simpl. now rewrite !append_assoc. }
  unfold clean_response. rewrite E, strip_fenced by reflexivity.
  rewrite <- E.
  replace ("```json" ++ nl ++ X ++ nl ++ "```")
    with ("```json" ++ (nl ++ X ++ nl) ++ "```") by now rewrite !append_assoc.
  rewrite startswith_append.
  change 7 with (String.length "```json").
  rewrite slice_fence. apply strip_own_line.
Qed.

Lemma clean_response_bare_fence (X : string) :
  clean_response ("```" ++ nl ++ X ++ nl ++ "```") = strip X.
Proof.
  assert (E : "```" ++ nl ++ X ++ nl ++ "```"
              = String "`" (("``" ++ nl ++ X ++ nl) ++ "```")).
  { simpl. now rewrite !append_assoc. }
  unfold clean_response. rewrite E, strip_fenced by reflexivity.
  rewrite <- E.
  replace (startswith ("```" ++ nl ++ X ++ nl ++ "```") "```json") with false
    by reflexivity.
  replace ("```" ++ nl ++ X ++ nl ++ "```")
    with ("```" ++ (nl ++ X ++ nl) ++ "```") by now rewrite !append_assoc.
  rewrite startswith_append.
  change 3 with (String.length "```") at 1.
  rewrite slice_fence. apply strip_own_line.
Qed.

(** C3, as amended.  For every text [X], a reply that fences [X] with the
    [json] tag or with no tag is cleaned to [X.strip()].  A reply [X] whose
    stripped form does not itself open with three backticks is cleaned to
    [X.strip()], and cleaning a second time changes nothing whenever the
    first cleaning left no opening fence. *)
Theorem clean_response_formats (X : string) :
  clean_response ("```json" ++ nl ++ X ++ nl ++ "```") = strip X
  /\ clean_response ("```" ++ nl ++ X ++ nl ++ "```") = strip X
  /\ (startswith (strip X) "```" = false -> clean_response X = strip X)
  /\ (startswith (clean_response X) "```" = false ->
      clean_response (clean_response X) = clean_response X).
Proof.
  split; [apply clean_response_json_fence|].
  split; [apply clean_response_bare_fence|].
  split; [apply clean_response_plain|].
  intros H. rewrite clean_response_plain; rewrite clean_response_stripped;
    [reflexivity | exact H].
Qed.

(** The amended C3 at a reply that is a bare JSON object between spaces. *)
Lemma clean_response_formats_witness :
  clean_response " {} " = strip " {} "
  /\ clean_response (clean_response " {} ") = clean_response " {} ".
Proof.
  destruct (clean_response_formats " {} ") as (_ & _ & Hplain & Htwice).
  split; [apply Hplain | apply Htwice]; reflexivity.
Defined.

(** C3 as stated fails on a text that opens with a fence itself: the text is
    not passed through, and a second cleaning removes a second fence. *)
Lemma clean_response_fence_in_text :
  clean_response "```x```" <> strip "```x```"
  /\ clean_response (clean_response "``````x``````")
     <> clean_response "``````x``````".
Proof. split; vm_compute; discriminate. Qed.

End ClientFacts.

(** ** The renderer's monad *)

Section RenderFacts.

Local Open Scope render_scope.














End RenderFacts.

(** ** Fields of a record of the Report shape *)

Section ShapeFacts.

Lemma dict_get_obj (f : dict) (k : string) (default : json) :
  dict_get (JObj f) k default
  = Ok (match lookup k f with Some v => v | None => default end).
Proof. reflexivity. Qed.




End ShapeFacts.

(** ** The blocks of the story run on a report of the Report shape *)

Section BlockFacts.

Variable clk : clock.

Local Open Scope render_scope.


























End BlockFacts.

(** ** What the renderer reads of a report *)

Section ReadFacts.

Variable clk : clock.

Lemma lookup_dict_set (k k' : string) (v : json) (f : dict) :
  lookup k' (dict_set k v f) = if String.eqb k' k then Some v else lookup k' f.
Proof.
  induction f as [|[k0 v0] f IH]; simpl.
  - reflexivity.
  - destruct (String.eqb k k0) eqn:E; simpl.
    + apply String.eqb_eq in E; subst k0.
      destruct (String.eqb k' k); reflexivity.
    + rewrite IH. destruct (String.eqb k' k0) eqn:E0; [|reflexivity].
      apply String.eqb_eq in E0; subst k0.
      destruct (String.eqb k' k) eqn:E1; [|reflexivity].
      apply String.eqb_eq in E1; subst k'. now rewrite String.eqb_refl in E.
Qed.

(** Unfolds the blocks down to the lookups in the report. *)
Ltac expose_lookups :=
  unfold generate_pdf_report, build_story, title_block, executive_summary,
    grade_justification, critical_deficiencies, criteria_breakdown,
    strengths_to_build, structural_analysis, revision_recommendations,
    readiness_assessment, report_notes, present, has_items, items_of,
    subscript, dict_get.

(** The renderer reads a report through fourteen keys and no other. *)
Lemma generate_pdf_report_reads (f f' : dict) :
  (forall k,
     In k ["assignment"; "rubric"; "overall_score"; "overall_grade";
           "timestamp"; "summary"; "grade_justification";
           "critical_deficiencies"; "criteria"; "strengths_to_build";
           "structural_analysis"; "revision_recommendations";
           "readiness_assessment"; "analysis_id"] ->
     lookup k f = lookup k f') ->
  generate_pdf_report clk (JObj f) = generate_pdf_report clk (JObj f').
Proof.
  intros H. expose_lookups.
  rewrite !(H "assignment"), !(H "rubric"), !(H "overall_score"),
    !(H "overall_grade"), !(H "timestamp"), !(H "summary"),
    !(H "grade_justification"), !(H "critical_deficiencies"), !(H "criteria"),
    !(H "strengths_to_build"), !(H "structural_analysis"),
    !(H "revision_recommendations"), !(H "readiness_assessment"),
    !(H "analysis_id") by (simpl; tauto).
  reflexivity.
Qed.


End ReadFacts.

(** ** The rendered report *)

Section ReportFacts.

Variable clk : clock.

Local Open Scope render_scope.










(** C10.  The fallback verdict and the degraded report keep their criteria
    under [criteria_breakdown] and have no [criteria], which is the one key
    the criteria block reads: the block appends nothing and the story has no
    "Detailed Criteria Analysis" section.  Whatever a report holds under
    [criteria_breakdown] leaves its story unchanged. *)
Theorem breakdown_never_rendered (raw : string) (f : dict) (v : json) :
  breakdown_dropped clk fallback_verdict
  /\ breakdown_dropped clk (degraded_report raw)
  /\ generate_pdf_report clk (JObj (dict_set "criteria_breakdown" v f))
     = generate_pdf_report clk (JObj f).
Proof.
  split; [|split].
  - split; [eexists; split; [reflexivity | discriminate]|].
    split; [reflexivity|]. split; [reflexivity|].
    eexists. split; [vm_compute; reflexivity|].
    simpl. intuition discriminate.
  - split; [eexists; split; [reflexivity | discriminate]|].
    split; [reflexivity|]. split; [reflexivity|].
    eexists. split; [vm_compute; reflexivity|].
    simpl. intuition discriminate.
  - apply generate_pdf_report_reads. intros k Hk.
    rewrite lookup_dict_set. simpl in Hk.
    repeat (destruct Hk as [<-|Hk]; [reflexivity|]). destruct Hk.
Qed.

End ReportFacts.



(** ** The client and the route *)

Section RouteFacts.

Variable key : string.
Variable post : http_request -> post_outcome.
Variable loads : string -> option json.

(** On two strings the client builds a prompt, sends one request and
    returns a string. *)
Lemma analyze_with_openrouter_returns (assignment rubric : string)
    (o1 o2 o3 : json) :
  exists prompt raw,
    build_prompt (JStr assignment) (JStr rubric) = Ok prompt
    /\ analyze_with_openrouter key post loads (JStr assignment) (JStr rubric)
         o1 o2 o3
       = ([request_of key prompt], Ok raw)
    /\ (attempt post loads (request_of key prompt) = Raise ->
        raw = json_dumps fallback_verdict).
Proof.
  eexists. eexists. split; [reflexivity|].
  unfold analyze_with_openrouter. cbn [build_prompt py_slice_to bind].
  split; [reflexivity|]. now intros ->.
Qed.

Lemma attempt_failed (request : http_request) :
  provider_failed (post request) -> attempt post loads request = Raise.
Proof.
  unfold attempt, provider_failed, raise_for_status.
  destruct (post request) as [|status_code text]; [reflexivity|].
  intros [Hlo Hhi].
  apply Z.leb_le in Hlo. apply Z.ltb_lt in Hhi. now rewrite Hlo, Hhi.
Qed.

(** C7.  For all assignment and rubric texts, the prompt that is sent to
    the model as the user message is the fixed head, a prefix of the rubric
    of [min 4000 (len rubric)] characters, the fixed middle, a prefix of the
    assignment of [min 6000 (len assignment)] characters, and the fixed
    tail. *)
Theorem prompt_embeds_prefixes (assignment rubric : string) (o1 o2 o3 : json) :
  exists r a rest_r rest_a prompt : string,
    prompt = prompt_head ++ r ++ prompt_middle ++ a ++ prompt_tail
    /\ build_prompt (JStr assignment) (JStr rubric) = Ok prompt
    /\ fst (analyze_with_openrouter key post loads (JStr assignment)
              (JStr rubric) o1 o2 o3)
       = [request_of key prompt]
    /\ user_content (request_of key prompt) = prompt
    /\ rubric = r ++ rest_r
    /\ assignment = a ++ rest_a
    /\ String.length r = Nat.min 4000 (String.length rubric)
    /\ String.length a = Nat.min 6000 (String.length assignment).
Proof.
  exists (take 4000 rubric), (take 6000 assignment),
         (drop 4000 rubric), (drop 6000 assignment).
  eexists. split; [reflexivity|].
  split; [reflexivity|]. split; [reflexivity|]. split; [reflexivity|].
  split; [symmetry; apply take_drop|].
  split; [symmetry; apply take_drop|].
  split; apply length_take.
Qed.

(** C1, as amended.  For every pair of input strings, when the call to the
    provider raises (no connection, timeout) or answers with a status from
    400 to 599, [analyze_with_openrouter] has sent its one request and
    returns, without raising, one fixed string.  That string parses as
    JSON, back to the fallback verdict; every field of the Report shape
    that the verdict has is of its type, the score, the grade and the
    summary are there, and so is the [note] that marks the verdict as
    simulated. *)
Theorem provider_failure_gives_fallback (assignment rubric prompt : string)
    (o1 o2 o3 : json) :
  build_prompt (JStr assignment) (JStr rubric) = Ok prompt ->
  provider_failed (post (request_of key prompt)) ->
  analyze_with_openrouter key post loads (JStr assignment) (JStr rubric) o1 o2 o3
  = ([request_of key prompt], Ok (json_dumps fallback_verdict))
  /\ json_loads (json_dumps fallback_verdict) = Some fallback_verdict
  /\ report_shape fallback_verdict = true
  /\ (exists score grade summary,
        subscript fallback_verdict "overall_score" = Ok (JInt score)
        /\ subscript fallback_verdict "overall_grade" = Ok (JStr grade)
        /\ subscript fallback_verdict "summary" = Ok (JStr summary))
  /\ subscript fallback_verdict "note"
     = Ok (JStr "Using simulated analysis (OpenRouter unavailable)").
Proof.
  intros Hp Hfail.
  destruct (analyze_with_openrouter_returns assignment rubric o1 o2 o3)
    as (prompt' & raw & Hp' & E & Hraw).
  rewrite Hp in Hp'. injection Hp' as <-.
  rewrite (Hraw (attempt_failed _ Hfail)) in E.
  split; [exact E|]. split; [vm_compute; reflexivity|].
  split; [vm_compute; reflexivity|].
  split; [do 3 eexists; repeat split; reflexivity | reflexivity].
Qed.



(** A JSON request that lacks one of the two texts, or has an empty one, is
    answered with the validation error and nothing is sent. *)
Lemma json_request_needs_both_texts (data : dict) :
  truthy (match lookup "assignment_text" data with
          | Some v => v | None => JStr EmptyString end) = false
  \/ truthy (match lookup "rubric_text" data with
             | Some v => v | None => JStr EmptyString end) = false ->
  upload_files key post loads (JsonRequest (JObj data))
  = ([], Jsonify (JObj [("success", JBool false);
                        ("error", JStr "Both assignment and rubric text are required")])).
Proof.
  intros H. unfold upload_files, analyze_json. rewrite !dict_get_obj.
  destruct H as [-> | ->]; [reflexivity|]. now rewrite orb_true_r.
Qed.

(** C8 at the form that uploads an empty assignment: the request is not
    rejected; the provider is sent a prompt with nothing between the
    middle and the tail, where the assignment goes. *)
Theorem empty_upload_reaches_provider :
  exists page,
    upload_files key post loads empty_assignment_form
    = ([request_of key (prompt_head ++ "Grade the essay." ++ prompt_middle
                        ++ EmptyString ++ prompt_tail)],
       RenderTemplate "result.html" page).
Proof.
  destruct (analyze_with_openrouter_returns "" "Grade the essay."
              (checked "detailed_analysis" [("detailed_analysis", "on")])
              (checked "rewrite_suggestions" [("detailed_analysis", "on")])
              (checked "grade_prediction" [("detailed_analysis", "on")]))
    as (prompt & raw & Hp & E & _).
  assert (Hprompt : prompt_head ++ "Grade the essay." ++ prompt_middle
                    ++ EmptyString ++ prompt_tail = prompt).
  { injection Hp as <-. reflexivity. }
  rewrite Hprompt. eexists.
  unfold upload_files, empty_assignment_form.
  cbn [file_named String.eqb Ascii.eqb Bool.eqb].
  unfold analyze_files, sample_upload.
  cbn [filename saved_text String.eqb orb].
  rewrite E. reflexivity.
Qed.

End RouteFacts.

(** ** The theorems at concrete inputs *)

(** The amended C1 at a provider that answers 503. *)
Lemma provider_failure_gives_fallback_witness :
  analyze_with_openrouter "sk-test" (canned_provider 503 EmptyString) json_loads
    (JStr "An essay.") (JStr "A rubric.") (JBool true) (JBool true) (JBool true)
  = ([request_of "sk-test"
        (prompt_head ++ "A rubric." ++ prompt_middle ++ "An essay." ++ prompt_tail)],
     Ok (json_dumps fallback_verdict))
  /\ json_loads (json_dumps fallback_verdict) = Some fallback_verdict
  /\ report_shape fallback_verdict = true
  /\ (exists score grade summary,
        subscript fallback_verdict "overall_score" = Ok (JInt score)
        /\ subscript fallback_verdict "overall_grade" = Ok (JStr grade)
        /\ subscript fallback_verdict "summary" = Ok (JStr summary))
  /\ subscript fallback_verdict "note"
     = Ok (JStr "Using simulated analysis (OpenRouter unavailable)").
Proof.
  apply provider_failure_gives_fallback; [reflexivity | simpl; lia].
Defined.

(** C1 as stated fails at a status that is neither a success nor an error
    for [raise_for_status]: the reply that comes with the status 300 is
    decoded and returned, not the fallback. *)
Lemma status_300_reply_is_returned :
  ~ (200 <= 300 <= 299)
  /\ snd (analyze_with_openrouter "sk-test" (canned_provider 300 "{}") json_loads
            (JStr "An essay.") (JStr "A rubric.")
            (JBool true) (JBool true) (JBool true))
     = Ok "{}"
  /\ "{}" <> json_dumps fallback_verdict.
Proof.
  split; [lia|]. split; [vm_compute; reflexivity | vm_compute; discriminate].
Qed.







(** * Further properties of the code *)

(** ** The cleaning of a reply, on every fenced text *)

Section CleaningFacts.

Local Open Scope nat_scope.

Lemma startswith_common (p s q : string) :
  startswith (p ++ s) (p ++ q) = startswith s q.
Proof.
  induction p as [|a p IH]; simpl; [reflexivity|].
  now rewrite Ascii.eqb_refl, IH.
Qed.

(** Three backticks after a text do not complete the tag. *)
Lemma startswith_json_fenced (Y : string) :
  startswith (Y ++ "```") "json" = startswith Y "json".
Proof.
  destruct Y as [|a [|b [|c [|d Y]]]]; simpl;
    repeat match goal with
           | |- context [Ascii.eqb ?x ?y] => destruct (Ascii.eqb x y); simpl
           end; reflexivity.
Qed.

Lemma strip_plain_ends (a c : ascii) (s : string) :
  is_space a = false -> is_space c = false ->
  strip (String a (s ++ String c "")) = String a (s ++ String c "").
Proof.
  intros Ha Hc. unfold strip.
  change (String a (s ++ String c "")) with (String a s ++ String c "").
  rewrite rstrip_ends_plain by exact Hc. simpl. now rewrite Ha.
Qed.

(** Whatever stands between an opening and a closing fence is returned
    stripped, after the tag [json] is taken off when the text starts with
    it; no new line is needed after the tag or before the closing fence. *)
Theorem clean_response_fenced (Y : string) :
  clean_response ("```" ++ Y ++ "```")
  = strip (if startswith Y "json" then drop 4 Y else Y).
Proof.
  assert (E : strip ("```" ++ Y ++ "```") = "```" ++ Y ++ "```").
  { change ("```" ++ Y ++ "```") with (String "`" ("``" ++ Y ++ "```")).
    replace ("``" ++ Y ++ "```") with (("``" ++ Y) ++ "```")
      by now rewrite append_assoc.
    now apply strip_fenced. }
  unfold clean_response. rewrite E.
  change "```json" with ("```" ++ "json") at 1.
  rewrite startswith_common, startswith_json_fenced.
  destruct (startswith Y "json") eqn:Hj.
  - apply startswith_split in Hj as [Z ->].
    replace ("```" ++ ("json" ++ Z) ++ "```") with ("```json" ++ Z ++ "```")
      by reflexivity.
    change 7 with (String.length "```json").
    rewrite slice_fence. reflexivity.
  - rewrite startswith_append.
    change 3 with (String.length "```") at 1.
    now rewrite slice_fence.
Qed.

(** A reply that opens a [json] fence and ends on a character that is not
    white space loses its last three characters, closing fence or not. *)
Theorem clean_response_unclosed (W : string) (c : ascii) :
  is_space c = false ->
  clean_response ("```json" ++ W ++ String c "")
  = strip (take (String.length (W ++ String c "") - 3) (W ++ String c "")).
Proof.
  intros Hc.
  assert (E : strip ("```json" ++ W ++ String c "")
              = "```json" ++ W ++ String c "").
  { change ("```json" ++ W ++ String c "")
      with (String "`" (("``json" ++ W) ++ String c "")).
    now apply strip_plain_ends. }
  unfold clean_response. rewrite E, startswith_append.
  unfold slice. change 7 with (String.length "```json").
  rewrite drop_length_append. reflexivity.
Qed.

(** The reply that was cut after the last bracket of a list. *)
Lemma clean_response_unclosed_witness :
  clean_response ("```json" ++ "[1, 2" ++ "]") = strip (take 3 "[1, 2]").
Proof.
  apply (clean_response_unclosed "[1, 2" "]"). reflexivity.
Defined.

End CleaningFacts.

(** ** The client, on every provider *)

Section ClientMore.

Variable key : string.
Variable post : http_request -> post_outcome.
Variable loads : string -> option json.

Lemma take_again (n : nat) (s : string) : take n (take n s) = take n s.
Proof.
  revert s; induction n as [|n IH]; intros [|c s]; simpl; try reflexivity.
  now rewrite IH.
Qed.

(** What the [try] returns went through the cleaning. *)
Lemma attempt_cleaned (request : http_request) (s : string) :
  attempt post loads request = Ok s -> exists c, s = clean_response c.
Proof.
  unfold attempt. destruct (post request) as [|code text]; [discriminate|].
  destruct (raise_for_status code); [|discriminate]. simpl.
  destruct (loads text) as [body|]; [|discriminate]. simpl.
  destruct (subscript body "choices") as [choices|]; [|discriminate]. simpl.
  destruct (first_item choices) as [choice|]; [|discriminate]. simpl.
  destruct (subscript choice "message") as [message|]; [|discriminate]. simpl.
  destruct (subscript message "content") as [content|]; [|discriminate]. simpl.
  destruct (as_str content) as [text'|]; [|discriminate]. simpl.
  intros H. injection H as <-. now exists text'.
Qed.

(** On two strings the client returns a string that has no white space at
    either end, whatever the provider did. *)
Theorem analyze_returns_stripped (assignment rubric : string) (o1 o2 o3 : json) :
  exists sent s,
    analyze_with_openrouter key post loads (JStr assignment) (JStr rubric)
      o1 o2 o3
    = (sent, Ok s)
    /\ strip s = s.
Proof.
  unfold analyze_with_openrouter. cbn [build_prompt py_slice_to bind].
  eexists. eexists. split; [reflexivity|].
  destruct (attempt post loads _) as [s|] eqn:E.
  - apply attempt_cleaned in E as [c ->]. apply clean_response_stripped.
  - vm_compute. reflexivity.
Qed.

(** The client reads the first 6000 characters of the assignment and the
    first 4000 of the rubric and nothing after them: cutting the inputs
    beforehand changes neither the request nor what is returned. *)
Theorem analyze_reads_budget (assignment rubric : string) (o1 o2 o3 : json) :
  analyze_with_openrouter key post loads (JStr assignment) (JStr rubric)
    o1 o2 o3
  = analyze_with_openrouter key post loads (JStr (take 6000 assignment))
      (JStr (take 4000 rubric)) o1 o2 o3.
Proof.
  unfold analyze_with_openrouter. cbn [build_prompt py_slice_to bind py_str].
  now rewrite !take_again.
Qed.

(** The prompt is at least the 4516 characters of its fixed parts and at
    most 10000 more. *)
Theorem prompt_length_bounded (assignment rubric : string) :
  exists prompt,
    build_prompt (JStr assignment) (JStr rubric) = Ok prompt
    /\ (4516 <= Z.of_nat (String.length prompt) <= 14516)%Z.
Proof.
  exists (prompt_head ++ take 4000 rubric ++ prompt_middle
          ++ take 6000 assignment ++ prompt_tail).
  split; [reflexivity|].
  rewrite !length_append, !length_take.
  assert (Hh : String.length prompt_head = 227%nat) by (vm_compute; reflexivity).
  assert (Hm : String.length prompt_middle = 41%nat) by (vm_compute; reflexivity).
  assert (Ht : Z.of_nat (String.length prompt_tail) = 4248%Z)
    by (vm_compute; reflexivity).
  assert (Hr : (Z.of_nat (Nat.min 4000 (String.length rubric)) <= 4000)%Z).
  { transitivity (Z.of_nat 4000); [|vm_compute; discriminate].
    apply Nat2Z.inj_le, Nat.le_min_l. }
  assert (Ha : (Z.of_nat (Nat.min 6000 (String.length assignment)) <= 6000)%Z).
  { transitivity (Z.of_nat 6000); [|vm_compute; discriminate].
    apply Nat2Z.inj_le, Nat.le_min_l. }
  rewrite Hh, Hm, !Nat2Z.inj_add, Ht.
  pose proof (Nat2Z.is_nonneg (Nat.min 4000 (String.length rubric))).
  pose proof (Nat2Z.is_nonneg (Nat.min 6000 (String.length assignment))).
  change (Z.of_nat 227) with 227%Z. change (Z.of_nat 41) with 41%Z.
  lia.
Qed.

(** A reply with a status that is no error is still replaced by the
    fallback when its body does not decode, has no [choices], has an empty
    list of them, or carries a content that is not a string. *)
Theorem malformed_reply_falls_back (assignment rubric prompt : string)
    (code : Z) (text : string) (o1 o2 o3 : json) :
  build_prompt (JStr assignment) (JStr rubric) = Ok prompt ->
  post (request_of key prompt) = PostReturns code text ->
  loads text = None
  \/ (exists f, loads text = Some (JObj f) /\ lookup "choices" f = None)
  \/ (exists f, loads text = Some (JObj f) /\ lookup "choices" f = Some (JArr []))
  \/ (exists f m rest msg v,
        loads text = Some (JObj f)
        /\ lookup "choices" f = Some (JArr (JObj m :: rest))
        /\ lookup "message" m = Some (JObj msg)
        /\ lookup "content" msg = Some v
        /\ is_str v = false) ->
  analyze_with_openrouter key post loads (JStr assignment) (JStr rubric) o1 o2 o3
  = ([request_of key prompt], Ok (json_dumps fallback_verdict)).
Proof.
  intros Hp Hpost Hbad.
  destruct (analyze_with_openrouter_returns key post loads assignment rubric
              o1 o2 o3) as (prompt' & raw & Hp' & E & Hraw).
  rewrite Hp in Hp'. injection Hp' as <-.
  rewrite E, Hraw; [reflexivity|].
  unfold attempt. rewrite Hpost.
  destruct (raise_for_status code); [simpl|reflexivity].
  destruct Hbad as [H|[(f & H & Hc)|[(f & H & Hc)|(f & m & rest & msg & v & H & Hc & Hm & Hv & Hs)]]];
    rewrite H; simpl.
  - reflexivity.
  - now rewrite Hc.
  - now rewrite Hc.
  - rewrite Hc. simpl. rewrite Hm. simpl. rewrite Hv. simpl.
    destruct v; try reflexivity. discriminate Hs.
Qed.

(** A reply whose status is no error and whose body is a chat completion
    gives the cleaned text of its first choice. *)
Theorem reply_text_is_cleaned (assignment rubric prompt : string)
    (code : Z) (text content : string) (f m msg : dict) (rest : list json)
    (o1 o2 o3 : json) :
  build_prompt (JStr assignment) (JStr rubric) = Ok prompt ->
  post (request_of key prompt) = PostReturns code text ->
  (code < 400 \/ 600 <= code)%Z ->
  loads text = Some (JObj f) ->
  lookup "choices" f = Some (JArr (JObj m :: rest)) ->
  lookup "message" m = Some (JObj msg) ->
  lookup "content" msg = Some (JStr content) ->
  analyze_with_openrouter key post loads (JStr assignment) (JStr rubric) o1 o2 o3
  = ([request_of key prompt], Ok (clean_response content)).
Proof.
  intros Hp Hpost Hcode Hl Hc Hm Hv.
  assert (Ha : attempt post loads (request_of key prompt)
               = Ok (clean_response content)).
  { unfold attempt. rewrite Hpost. unfold raise_for_status.
    replace ((400 <=? code) && (code <? 600)) with false.
    - cbn [bind]. rewrite Hl. cbn [bind subscript]. rewrite Hc.
      cbn [bind first_item subscript]. rewrite Hm. cbn [bind subscript].
      rewrite Hv. reflexivity.
    - symmetry. apply andb_false_iff.
      destruct Hcode; [left; apply Z.leb_gt | right; apply Z.ltb_ge]; lia. }
  unfold analyze_with_openrouter. rewrite Hp, Ha. reflexivity.
Qed.

End ClientMore.

(** The body that is not JSON, answered with the status 200. *)
Lemma malformed_reply_falls_back_witness :
  analyze_with_openrouter "sk-test"
    (fun _ => PostReturns 200 "<html>Bad gateway</html>") json_loads
    (JStr "An essay.") (JStr "A rubric.") (JBool true) (JBool true) (JBool true)
  = ([request_of "sk-test"
        (prompt_head ++ "A rubric." ++ prompt_middle ++ "An essay." ++ prompt_tail)],
     Ok (json_dumps fallback_verdict)).
Proof.
  apply (malformed_reply_falls_back "sk-test"
           (fun _ => PostReturns 200 "<html>Bad gateway</html>") json_loads
           "An essay." "A rubric." _ 200 "<html>Bad gateway</html>");
    [reflexivity | reflexivity | left; reflexivity].
Defined.

(** The chat completion whose text is a fenced object. *)
Lemma reply_text_is_cleaned_witness :
  analyze_with_openrouter "sk-test"
    (canned_provider 200 ("```json" ++ nl ++ "{}" ++ nl ++ "```")) json_loads
    (JStr "An essay.") (JStr "A rubric.") (JBool true) (JBool true) (JBool true)
  = ([request_of "sk-test"
        (prompt_head ++ "A rubric." ++ prompt_middle ++ "An essay." ++ prompt_tail)],
     Ok (clean_response ("```json" ++ nl ++ "{}" ++ nl ++ "```"))).
Proof.
  apply (reply_text_is_cleaned "sk-test"
           (canned_provider 200 ("```json" ++ nl ++ "{}" ++ nl ++ "```"))
           json_loads "An essay." "A rubric." _ 200
           (chat_completion ("```json" ++ nl ++ "{}" ++ nl ++ "```"))
           ("```json" ++ nl ++ "{}" ++ nl ++ "```")
           [("choices",
             JArr [JObj [("message",
                          JObj [("role", JStr "assistant");
                                ("content",
                                 JStr ("```json" ++ nl ++ "{}" ++ nl ++ "```"))])]])]
           [("message",
             JObj [("role", JStr "assistant");
                   ("content", JStr ("```json" ++ nl ++ "{}" ++ nl ++ "```"))])]
           [("role", JStr "assistant");
            ("content", JStr ("```json" ++ nl ++ "{}" ++ nl ++ "```"))]
           []);
    try reflexivity. left. lia.
Defined.

(** ** The route [/analyze], on every request *)

Section UploadMore.

Variable key : string.
Variable post : http_request -> post_outcome.
Variable loads : string -> option json.



(** The three options change nothing: a JSON request gets the same requests
    sent and the same response whatever it holds under an option, and a
    form whatever its fields are. *)
Theorem options_are_inert (data : dict) (v : json)
    (files : list (string * upload)) (form form' : list (string * string)) :
  upload_files key post loads
    (JsonRequest (JObj (dict_set "detailed_analysis" v data)))
  = upload_files key post loads (JsonRequest (JObj data))
  /\ upload_files key post loads
       (JsonRequest (JObj (dict_set "rewrite_suggestions" v data)))
     = upload_files key post loads (JsonRequest (JObj data))
  /\ upload_files key post loads
       (JsonRequest (JObj (dict_set "grade_prediction" v data)))
     = upload_files key post loads (JsonRequest (JObj data))
  /\ upload_files key post loads (FormRequest files form)
     = upload_files key post loads (FormRequest files form').
Proof.
  repeat split;
    try (unfold upload_files, analyze_json; rewrite !dict_get_obj,
           !lookup_dict_set; cbn [String.eqb Ascii.eqb Bool.eqb];
         reflexivity).
Qed.

(** A JSON request whose text is there but cannot be sliced (a number, a
    boolean, an object) is answered by the outer handler, and nothing is
    sent. *)
Theorem unsliceable_text_sends_nothing (data : dict) (a r : json) :
  lookup "assignment_text" data = Some a ->
  lookup "rubric_text" data = Some r ->
  truthy a = true -> truthy r = true ->
  py_slice_to 6000 a = Raise \/ py_slice_to 4000 r = Raise ->
  upload_files key post loads (JsonRequest (JObj data)) = ([], JsonifyException).
Proof.
  intros Ha Hr Ta Tr Hbad.
  unfold upload_files, analyze_json. rewrite !dict_get_obj, Ha, Hr, Ta, Tr.
  cbn [negb orb]. unfold analyze_with_openrouter, build_prompt.
  destruct Hbad as [E|E]; rewrite E.
  - now destruct (py_slice_to 4000 r).
  - reflexivity.
Qed.

(** When the provider fails on every request, the caller is not told: a
    JSON request with its two texts gets the success payload with the
    fallback verdict, and a form with its two files the result page with
    it, given a decoder that reads the fallback string back. *)
Theorem provider_down_is_success (data : dict) (ja jr ta tr : string)
    (assignment_file rubric_file : upload) (form : list (string * string)) :
  (forall request, provider_failed (post request)) ->
  loads (json_dumps fallback_verdict) = Some fallback_verdict ->
  (lookup "assignment_text" data = Some (JStr ja) -> ja <> EmptyString ->
   lookup "rubric_text" data = Some (JStr jr) -> jr <> EmptyString ->
   exists prompt,
     upload_files key post loads (JsonRequest (JObj data))
     = ([request_of key prompt],
        Jsonify (JObj [("success", JBool true);
                       ("analysis", fallback_verdict)])))
  /\ (String.eqb (filename assignment_file) EmptyString = false ->
      String.eqb (filename rubric_file) EmptyString = false ->
      saved_text assignment_file = Ok ta ->
      saved_text rubric_file = Ok tr ->
      exists prompt,
        upload_files key post loads
          (FormRequest [("assignment", assignment_file);
                        ("rubric", rubric_file)] form)
        = ([request_of key prompt],
           RenderTemplate "result.html"
             [("analysis", fallback_verdict);
              ("assignment_name", JStr (filename assignment_file));
              ("rubric_name", JStr (filename rubric_file))])).
Proof.
  intros Hdown Hloads. split.
  - intros Hja Hja' Hjr Hjr'.
    destruct (analyze_with_openrouter_returns key post loads ja jr
                (match lookup "detailed_analysis" data with
                 | Some v => v | None => JBool true end)
                (match lookup "rewrite_suggestions" data with
                 | Some v => v | None => JBool true end)
                (match lookup "grade_prediction" data with
                 | Some v => v | None => JBool true end))
      as (prompt & raw & _ & E & Hraw).
    rewrite (Hraw (attempt_failed post loads _ (Hdown _))) in E.
    exists prompt. unfold upload_files, analyze_json.
    rewrite !dict_get_obj, Hja, Hjr.
    assert (Ta : truthy (JStr ja) = true).
    { simpl. destruct (String.eqb_spec ja ""); [contradiction | reflexivity]. }
    assert (Tr : truthy (JStr jr) = true).
    { simpl. destruct (String.eqb_spec jr ""); [contradiction | reflexivity]. }
    rewrite Ta, Tr. cbn [negb orb]. rewrite E, Hloads. reflexivity.
  - intros Ha Hr Hta Htr.
    destruct (analyze_with_openrouter_returns key post loads ta tr
                (checked "detailed_analysis" form)
                (checked "rewrite_suggestions" form)
                (checked "grade_prediction" form))
      as (prompt & raw & _ & E & Hraw).
    rewrite (Hraw (attempt_failed post loads _ (Hdown _))) in E.
    exists prompt. unfold upload_files.
    cbn [file_named String.eqb Ascii.eqb Bool.eqb].
    unfold analyze_files. rewrite Ha, Hr, Hta, Htr. cbn [orb].
    rewrite E, Hloads. reflexivity.
Qed.

(** The extension test is not applied to an upload: a file whose name
    [allowed_file] refuses is read and analysed like any other. *)
Theorem refused_extension_is_analysed (assignment_file rubric_file : upload)
    (form : list (string * string)) (ta tr : string) :
  allowed_file (filename assignment_file) = false ->
  String.eqb (filename assignment_file) EmptyString = false ->
  String.eqb (filename rubric_file) EmptyString = false ->
  saved_text assignment_file = Ok ta ->
  saved_text rubric_file = Ok tr ->
  exists prompt analysis,
    build_prompt (JStr ta) (JStr tr) = Ok prompt
    /\ upload_files key post loads
         (FormRequest [("assignment", assignment_file); ("rubric", rubric_file)]
            form)
       = ([request_of key prompt],
          RenderTemplate "result.html"
            [("analysis", analysis);
             ("assignment_name", JStr (filename assignment_file));
             ("rubric_name", JStr (filename rubric_file))]).
Proof.
  intros _ Ha Hr Hta Htr.
  destruct (analyze_with_openrouter_returns key post loads ta tr
              (checked "detailed_analysis" form)
              (checked "rewrite_suggestions" form)
              (checked "grade_prediction" form))
    as (prompt & raw & Hp & E & _).
  exists prompt. eexists. split; [exact Hp|].
  unfold upload_files. cbn [file_named String.eqb Ascii.eqb Bool.eqb].
  unfold analyze_files. rewrite Ha, Hr, Hta, Htr. cbn [orb].
  rewrite E. reflexivity.
Qed.

End UploadMore.

(** A JSON request whose assignment is the number 5. *)
Lemma unsliceable_text_sends_nothing_witness :
  upload_files "sk-test" (canned_provider 200 "{}") json_loads
    (JsonRequest (JObj [("assignment_text", JInt 5);
                        ("rubric_text", JStr "A rubric.")]))
  = ([], JsonifyException).
Proof.
  apply (unsliceable_text_sends_nothing "sk-test" (canned_provider 200 "{}")
           json_loads
           [("assignment_text", JInt 5); ("rubric_text", JStr "A rubric.")]
           (JInt 5) (JStr "A rubric."));
    try reflexivity. left. reflexivity.
Defined.

(** A provider that cannot be reached, and the decoder of the model. *)
Lemma provider_down_is_success_witness :
  (exists prompt,
     upload_files "sk-test" (fun _ => PostRaises) json_loads
       (JsonRequest (JObj [("assignment_text", JStr "An essay.");
                           ("rubric_text", JStr "A rubric.")]))
     = ([request_of "sk-test" prompt],
        Jsonify (JObj [("success", JBool true);
                       ("analysis", fallback_verdict)])))
  /\ (exists prompt,
        upload_files "sk-test" (fun _ => PostRaises) json_loads
          (FormRequest [("assignment", sample_upload "essay.txt" "An essay.");
                        ("rubric", sample_upload "rubric.txt" "A rubric.")] [])
        = ([request_of "sk-test" prompt],
           RenderTemplate "result.html"
             [("analysis", fallback_verdict);
              ("assignment_name", JStr "essay.txt");
              ("rubric_name", JStr "rubric.txt")])).
Proof.
  destruct (provider_down_is_success "sk-test" (fun _ => PostRaises) json_loads
              [("assignment_text", JStr "An essay.");
               ("rubric_text", JStr "A rubric.")]
              "An essay." "A rubric." "An essay." "A rubric."
              (sample_upload "essay.txt" "An essay.")
              (sample_upload "rubric.txt" "A rubric.") [])
    as [Hjson Hform]; [intros request; exact I | vm_compute; reflexivity |].
  split.
  - apply Hjson; try reflexivity; discriminate.
  - apply Hform; reflexivity.
Defined.

(** ** The extension test *)

Section ExtensionFacts.

Lemma contains_dot (s : string) : contains "." s = has_char "."%char s.
Proof.
  induction s as [|c s IH]; [reflexivity|].
  cbn [contains startswith has_char]. now rewrite andb_true_r, IH.
Qed.

Lemma rsplit_dot_none (s : string) :
  has_char "."%char s = false -> rsplit_dot s = None.
Proof.
  induction s as [|c s IH]; [reflexivity|].
  cbn [has_char rsplit_dot].
  intros H. apply orb_false_iff in H as [Hc Hs].
  rewrite (IH Hs). rewrite Ascii.eqb_sym in Hc. now rewrite Hc.
Qed.

Lemma rsplit_dot_last (stem ext : string) :
  has_char "."%char ext = false ->
  rsplit_dot (stem ++ "." ++ ext) = Some (stem, ext).
Proof.
  intros H. induction stem as [|c stem IH].
  - cbn [append rsplit_dot]. rewrite (rsplit_dot_none ext H).
    now rewrite Ascii.eqb_refl.
  - change (String c stem ++ "." ++ ext) with (String c (stem ++ "." ++ ext)).
    cbn [rsplit_dot]. now rewrite IH.
Qed.

Lemma has_char_append (c : ascii) (s t : string) :
  has_char c (s ++ t) = has_char c s || has_char c t.
Proof.
  induction s as [|a s IH]; [reflexivity|].
  cbn [append has_char]. now rewrite IH, orb_assoc.
Qed.

(** A name with no dot is refused.  A name with a dot is judged on what
    follows its last dot, whatever the case of the letters: it is allowed
    exactly when that, in lower case, is one of the eleven extensions. *)
Theorem allowed_file_by_extension (stem ext : string) :
  contains "." ext = false ->
  allowed_file ext = false
  /\ allowed_file (stem ++ "." ++ ext)
     = existsb (String.eqb (lower ext)) ALLOWED_EXTENSIONS.
Proof.
  intros H. unfold allowed_file. split; [now rewrite H|].
  rewrite contains_dot in H. rewrite rsplit_dot_last by exact H.
  rewrite contains_dot, has_char_append.
  change (has_char "." ("." ++ ext)) with (true || has_char "."%char ext).
  now rewrite orb_true_r.
Qed.

End ExtensionFacts.

(** The name with two dots and capitals in its extension. *)
Lemma allowed_file_by_extension_witness :
  allowed_file "TXT" = false
  /\ allowed_file ("report.final" ++ "." ++ "TXT")
     = existsb (String.eqb (lower "TXT")) ALLOWED_EXTENSIONS.
Proof.
  apply (allowed_file_by_extension "report.final" "TXT"). reflexivity.
Defined.

(** An upload named after a program. *)
Lemma refused_extension_is_analysed_witness :
  exists prompt analysis,
    build_prompt (JStr "MZ") (JStr "A rubric.") = Ok prompt
    /\ upload_files "sk-test" (canned_provider 200 "{}") json_loads
         (FormRequest [("assignment", sample_upload "essay.exe" "MZ");
                       ("rubric", sample_upload "rubric.txt" "A rubric.")] [])
       = ([request_of "sk-test" prompt],
          RenderTemplate "result.html"
            [("analysis", analysis);
             ("assignment_name", JStr "essay.exe");
             ("rubric_name", JStr "rubric.txt")]).
Proof.
  apply (refused_extension_is_analysed "sk-test" (canned_provider 200 "{}")
           json_loads (sample_upload "essay.exe" "MZ")
           (sample_upload "rubric.txt" "A rubric.") [] "MZ" "A rubric.");
    reflexivity.
Defined.

(** ** The story, on every report of the Report shape *)

Section StoryMore.

Variable clk : clock.

Local Open Scope render_scope.










End StoryMore.

(** ** Values that read as absent *)

Section FalsyFacts.

Variable clk : clock.

Local Open Scope render_scope.

(** The readiness block reads the report through one key. *)
Lemma readiness_assessment_reads (f : dict) (v : json) :
  lookup "readiness_assessment" f = Some v ->
  readiness_assessment (JObj f)
  = readiness_assessment (JObj [("readiness_assessment", v)]).
Proof.
  intros H. unfold readiness_assessment, present, subscript, dict_get.
  rewrite H. reflexivity.
Qed.

(** The story follows the readiness block and the thirteen other keys. *)
Lemma generate_pdf_report_follows (f f' : dict) :
  (forall k,
     In k ["assignment"; "rubric"; "overall_score"; "overall_grade";
           "timestamp"; "summary"; "grade_justification";
           "critical_deficiencies"; "criteria"; "strengths_to_build";
           "structural_analysis"; "revision_recommendations"; "analysis_id"] ->
     lookup k f = lookup k f') ->
  readiness_assessment (JObj f) = readiness_assessment (JObj f') ->
  generate_pdf_report clk (JObj f) = generate_pdf_report clk (JObj f').
Proof.
  intros H Hready. unfold generate_pdf_report, build_story. rewrite Hready.
  unfold title_block, executive_summary, grade_justification,
    critical_deficiencies, criteria_breakdown, strengths_to_build,
    structural_analysis, revision_recommendations, report_notes, present,
    has_items, items_of, subscript, dict_get.
  rewrite !(H "assignment"), !(H "rubric"), !(H "overall_score"),
    !(H "overall_grade"), !(H "timestamp"), !(H "summary"),
    !(H "grade_justification"), !(H "critical_deficiencies"), !(H "criteria"),
    !(H "strengths_to_build"), !(H "structural_analysis"),
    !(H "revision_recommendations"), !(H "analysis_id") by (simpl; tauto).
  reflexivity.
Qed.

Lemma dict_set_not_empty (k : string) (v : json) (g : dict) :
  truthy (JObj (dict_set k v g)) = true.
Proof.
  destruct g as [|[k0 v0] g]; [reflexivity|].
  simpl. now destruct (String.eqb k k0).
Qed.

(** An estimate of zero hours reads as no estimate: a readiness assessment
    that is not empty and has no estimate gets the same story when the
    estimate 0 is put in. *)
Theorem zero_hours_not_shown (f g : dict) :
  lookup "readiness_assessment" f = Some (JObj g) ->
  g <> [] ->
  lookup "estimated_revision_hours" g = None ->
  generate_pdf_report clk
    (JObj (dict_set "readiness_assessment"
             (JObj (dict_set "estimated_revision_hours" (JInt 0) g)) f))
  = generate_pdf_report clk (JObj f).
Proof.
  intros Hl Hg Hn. apply generate_pdf_report_follows.
  - intros k Hk. rewrite lookup_dict_set. simpl in Hk.
    repeat (destruct Hk as [<-|Hk]; [reflexivity|]). destruct Hk.
  - rewrite (readiness_assessment_reads f (JObj g) Hl).
    rewrite (readiness_assessment_reads _
               (JObj (dict_set "estimated_revision_hours" (JInt 0) g)))
      by (rewrite lookup_dict_set; reflexivity).
    assert (Tg : truthy (JObj g) = true) by (destruct g; [contradiction | reflexivity]).
    pose proof (dict_set_not_empty "estimated_revision_hours" (JInt 0) g) as Tg'.
    unfold readiness_assessment, bullets, present, has_items, items_of,
      subscript, dict_get.
    cbn [lookup String.eqb Ascii.eqb Bool.eqb bind].
    rewrite Tg, Tg'. cbn [seq lift when emit bind].
    rewrite !lookup_dict_set.
    cbn [String.eqb Ascii.eqb Bool.eqb]. rewrite Hn.
    cbn [truthy Z.eqb negb when]. reflexivity.
Qed.

End FalsyFacts.

(** The assessment with its status alone. *)
Lemma zero_hours_not_shown_witness :
  generate_pdf_report sample_clock
    (JObj (dict_set "readiness_assessment"
             (JObj (dict_set "estimated_revision_hours" (JInt 0)
                      [("status", JStr "Ready for Submission")]))
             [("readiness_assessment",
               JObj [("status", JStr "Ready for Submission")])]))
  = generate_pdf_report sample_clock
      (JObj [("readiness_assessment",
              JObj [("status", JStr "Ready for Submission")])]).
Proof.
  apply (zero_hours_not_shown sample_clock
           [("readiness_assessment", JObj [("status", JStr "Ready for Submission")])]
           [("status", JStr "Ready for Submission")]);
    [reflexivity | discriminate | reflexivity].
Defined.




(** ** The download of a report *)

Section DownloadFacts.

Variable clk : clock.
Variable new_id : string.
Variable new_stamp : string.

Local Open Scope result_scope.




Lemma fill_in_obj (f : dict) (k : string) (v : json) :
  fill_in (JObj f) k v
  = Ok (JObj (match lookup k f with Some _ => f | None => dict_set k v f end)).
Proof. unfold fill_in. cbn [py_in bind]. now destruct (lookup k f). Qed.

(** Unfolds the renderer down to the lookups in the report. *)
Ltac to_lookups :=
  unfold generate_pdf_report, build_story, title_block, executive_summary,
    grade_justification, critical_deficiencies, criteria_breakdown,
    strengths_to_build, structural_analysis, revision_recommendations,
    readiness_assessment, report_notes, present, has_items, items_of,
    subscript, dict_get.

(** After the two identifiers are filled in, the renderer has no use for
    its own: the story is the one of the report as it came, rendered with
    the identifiers that were drawn for it. *)
Lemma filled_report (f : dict) :
  exists f1 f2,
    fill_in (JObj f) "analysis_id" (JStr new_id) = Ok (JObj f1)
    /\ fill_in (JObj f1) "timestamp" (JStr new_stamp) = Ok (JObj f2)
    /\ lookup "assignment" f2 = lookup "assignment" f
    /\ lookup "overall_score" f2 = lookup "overall_score" f
    /\ generate_pdf_report clk (JObj f2)
       = generate_pdf_report
           {| now_stamp := new_stamp; fresh_id := new_id;
              now_footer := now_footer clk |} (JObj f).
Proof.
  eexists. eexists. split; [apply fill_in_obj|]. split; [apply fill_in_obj|].
  destruct (lookup "analysis_id" f) as [a|] eqn:Ha;
    [|rewrite (lookup_dict_set "analysis_id" "timestamp");
      cbn [String.eqb Ascii.eqb Bool.eqb]];
    (destruct (lookup "timestamp" f) as [t|] eqn:Ht);
    repeat (progress (rewrite ?lookup_dict_set;
                      cbn [String.eqb Ascii.eqb Bool.eqb]));
    repeat split;
    to_lookups; cbn [now_stamp fresh_id now_footer];
    repeat (progress (rewrite ?lookup_dict_set;
                      cbn [String.eqb Ascii.eqb Bool.eqb]));
    rewrite Ha, Ht; reflexivity.
Qed.


Lemma pdf_response_of_other (c : clock) (body : json) :
  (forall f, body <> JObj f) -> pdf_response c new_id new_stamp body = Raise.
Proof.
  intros H. unfold pdf_response, fill_in.
  destruct body as [| b | n | s | l | f]; try reflexivity.
  - cbn [py_in bind set_item].
    destruct (contains "analysis_id" s); cbn [bind py_in set_item];
      [destruct (contains "timestamp" s)|]; reflexivity.
  - cbn [py_in bind set_item].
    destruct (existsb _ l); cbn [bind py_in set_item];
      [destruct (existsb _ l)|]; reflexivity.
  - now destruct (H f).
Qed.

(** A body that is not a JSON object is answered with the failure: null, a
    number, a truth value, a string and a list alike, also a string or a
    list that holds the two names the route looks for. *)
Theorem download_pdf_needs_object (body : json) :
  (forall f, body <> JObj f) ->
  download_pdf clk new_id new_stamp body
  = JsonFailure 500 [("success", JBool false)] "PDF generation failed: ".
Proof.
  intros H. unfold download_pdf. now rewrite pdf_response_of_other.
Qed.

(** A report whose assignment is there and is not a string is answered
    with the failure, whatever else it holds. *)
Theorem download_pdf_needs_text_name (f : dict) (v : json) :
  lookup "assignment" f = Some v ->
  (forall s, v <> JStr s) ->
  download_pdf clk new_id new_stamp (JObj f)
  = JsonFailure 500 [("success", JBool false)] "PDF generation failed: ".
Proof.
  intros Hl Hv.
  destruct (filled_report f) as (f1 & f2 & E1 & E2 & La & _ & _).
  unfold download_pdf, pdf_response. rewrite E1. cbn [bind]. rewrite E2.
  cbn [bind]. destruct (generate_pdf_report clk (JObj f2)); [|reflexivity].
  cbn [bind dict_get]. rewrite La, Hl.
  destruct v; try reflexivity. now destruct (Hv s).
Qed.

(** The renderer reads the clock of a download for the line of its footer
    only: its own identifier and time of the report are never drawn on. *)
Theorem download_pdf_own_identifiers (clk' : clock) (body : json) :
  now_footer clk = now_footer clk' ->
  download_pdf clk new_id new_stamp body
  = download_pdf clk' new_id new_stamp body.
Proof.
  intros Hfoot. destruct body as [| b | n | s | l | f].
  6: { destruct (filled_report f) as (f1 & f2 & E1 & E2 & _ & _ & Egen).
       unfold download_pdf, pdf_response. rewrite E1. cbn [bind]. rewrite E2.
       cbn [bind]. rewrite Egen. clear Egen.
       assert (Egen' : generate_pdf_report clk' (JObj f2)
                       = generate_pdf_report
                           {| now_stamp := new_stamp; fresh_id := new_id;
                              now_footer := now_footer clk |} (JObj f)).
       { rewrite Hfoot. revert E1 E2. rewrite !fill_in_obj.
         intros E1 E2. injection E1 as <-. injection E2 as <-.
         destruct (lookup "analysis_id" f) as [a|] eqn:Ha;
           [|rewrite (lookup_dict_set "analysis_id" "timestamp");
             cbn [String.eqb Ascii.eqb Bool.eqb]];
           (destruct (lookup "timestamp" f) as [t|] eqn:Ht);
           to_lookups; cbn [now_stamp fresh_id now_footer];
           repeat (progress (rewrite ?lookup_dict_set;
                             cbn [String.eqb Ascii.eqb Bool.eqb]));
           rewrite Ha, Ht; reflexivity. }
       rewrite Egen'. reflexivity. }
  all: unfold download_pdf; rewrite !pdf_response_of_other by discriminate;
    reflexivity.
Qed.

End DownloadFacts.


(** A list that holds the two names. *)
Lemma download_pdf_needs_object_witness :
  download_pdf sample_clock "9f8e7d6c" "2026-02-01 09:00:00"
    (JArr [JStr "analysis_id"; JStr "timestamp"])
  = JsonFailure 500 [("success", JBool false)] "PDF generation failed: ".
Proof.
  apply (download_pdf_needs_object sample_clock "9f8e7d6c" "2026-02-01 09:00:00"
           (JArr [JStr "analysis_id"; JStr "timestamp"])).
  discriminate.
Defined.

(** A report whose assignment is a number. *)
Lemma download_pdf_needs_text_name_witness :
  download_pdf sample_clock "9f8e7d6c" "2026-02-01 09:00:00"
    (JObj [("assignment", JInt 7); ("overall_score", JInt 72)])
  = JsonFailure 500 [("success", JBool false)] "PDF generation failed: ".
Proof.
  apply (download_pdf_needs_text_name sample_clock "9f8e7d6c"
           "2026-02-01 09:00:00"
           [("assignment", JInt 7); ("overall_score", JInt 72)] (JInt 7));
    [reflexivity | discriminate].
Defined.

(** Two clocks that agree on the footer. *)
Lemma download_pdf_own_identifiers_witness :
  download_pdf sample_clock "9f8e7d6c" "2026-02-01 09:00:00"
    (JObj [("overall_score", JInt 72)])
  = download_pdf
      {| now_stamp := "1999-12-31 23:59:59"; fresh_id := "00000000";
         now_footer := now_footer sample_clock |}
      "9f8e7d6c" "2026-02-01 09:00:00" (JObj [("overall_score", JInt 72)]).
Proof.
  apply (download_pdf_own_identifiers sample_clock "9f8e7d6c"
           "2026-02-01 09:00:00"
           {| now_stamp := "1999-12-31 23:59:59"; fresh_id := "00000000";
              now_footer := now_footer sample_clock |}
           (JObj [("overall_score", JInt 72)])).
  reflexivity.
Defined.

(** ** The test route *)

Section TestRoute.

Variable key : string.
Variable post : http_request -> post_outcome.
Variable loads : string -> option json.

(** When the provider fails, the test route does not report it: it sends
    its one request and answers with success and the fallback verdict as
    the result of the test, given a decoder that reads the fallback string
    back. *)
Theorem test_ai_hides_provider_failure (v : json) :
  (forall request, provider_failed (post request)) ->
  loads (json_dumps fallback_verdict) = Some v ->
  exists prompt,
    build_prompt (JStr test_assignment) (JStr test_rubric) = Ok prompt
    /\ test_ai key post loads
       = ([request_of key prompt],
          JsonReply 200 (JObj [("success", JBool true);
                               ("strict_mode", JBool true);
                               ("test_result", v)])).
Proof.
  intros Hdown Hloads.
  destruct (analyze_with_openrouter_returns key post loads test_assignment
              test_rubric (JBool true) (JBool true) (JBool true))
    as (prompt & raw & Ep & E & Hraw).
  rewrite (Hraw (attempt_failed post loads _ (Hdown _))) in E.
  exists prompt. split; [exact Ep|].
  unfold test_ai. rewrite E, Hloads. reflexivity.
Qed.

(** The test route answers with the failure, whose flag says that the
    fallback works, only when the fallback was not used: the provider
    answered, and the text of its reply, once cleaned, does not decode. *)
Theorem test_ai_failure_is_a_reply (v : json) :
  loads (json_dumps fallback_verdict) = Some v ->
  snd (test_ai key post loads)
  = JsonFailure 200 [("success", JBool false); ("strict_mode", JBool true);
                     ("fallback_working", JBool true)] EmptyString ->
  exists prompt s,
    fst (test_ai key post loads) = [request_of key prompt]
    /\ attempt post loads (request_of key prompt) = Ok s
    /\ loads s = None.
Proof.
  intros Hloads. unfold test_ai, analyze_with_openrouter.
  cbn [build_prompt py_slice_to bind].
  match goal with
  | |- context [attempt post loads (request_of key ?p)] =>
      destruct (attempt post loads (request_of key p)) as [s|] eqn:Ea;
      cbn [fst snd]; [|rewrite Hloads; discriminate];
      destruct (loads s) eqn:El; [discriminate|];
      intros _; exists p, s; auto
  end.
Qed.

End TestRoute.

(** A provider that cannot be reached, and the decoder of the model. *)
Lemma test_ai_hides_provider_failure_witness :
  exists prompt,
    build_prompt (JStr test_assignment) (JStr test_rubric) = Ok prompt
    /\ test_ai "sk-test" (fun _ => PostRaises) json_loads
       = ([request_of "sk-test" prompt],
          JsonReply 200 (JObj [("success", JBool true);
                               ("strict_mode", JBool true);
                               ("test_result", fallback_verdict)])).
Proof.
  apply (test_ai_hides_provider_failure "sk-test" (fun _ => PostRaises)
           json_loads fallback_verdict);
    [intros request; exact I | vm_compute; reflexivity].
Defined.

(** A provider whose reply is a sentence. *)
Lemma test_ai_failure_is_a_reply_witness :
  exists prompt s,
    fst (test_ai "sk-test" (canned_provider 200 "I cannot grade this.") json_loads)
    = [request_of "sk-test" prompt]
    /\ attempt (canned_provider 200 "I cannot grade this.") json_loads
         (request_of "sk-test" prompt) = Ok s
    /\ json_loads s = None.
Proof.
  apply (test_ai_failure_is_a_reply "sk-test"
           (canned_provider 200 "I cannot grade this.") json_loads
           fallback_verdict);
    vm_compute; reflexivity.
Defined.
